(** * JFK files analyzer: the page-by-page analysis pipeline

    A shallow embedding of [streamlit_app.py]: the function [process_pdf]
    (render every page of an uploaded PDF, send it to the Gemini client,
    collect one result per page) and the part of the script that runs
    when the "Analyze Document" button is pressed (per-page tabs, the
    document summary and the full report).

    The script is effectful: it writes a temporary file, calls a remote
    model and draws widgets.  The effects are modelled by a state and
    exception monad over a [World] that holds the files on disk, the log
    of requests sent to the model and the log of widgets drawn. *)

From Stdlib Require Import Ascii QArith Qround DecimalString DecimalPos DecimalZ.
From stdpp Require Import gmap strings list list_numbers fin_maps.

Local Open Scope Z_scope.

(** ** Python values *)

Abbreviation bytes := (list Byte.byte).

(** [str(e)] of a caught exception is all the script ever looks at. *)
Definition Exn := string.

Inductive Result (A : Type) : Type :=
| Ok (a : A)
| Raise (e : Exn).
Arguments Ok {A} a.
Arguments Raise {A} e.

Definition LF : string := String "010"%char EmptyString.

(** [str(n)] for a Python [int]. *)
Definition str_int (n : Z) : string := NilZero.string_of_int (Z.to_int n).

(** [sep.join(xs)]. *)
Fixpoint str_join (sep : string) (xs : list string) : string :=
  match xs with
  | [] => ""
  | [x] => x
  | x :: rest => x +:+ sep +:+ str_join sep rest
  end.

(** [a / b] on two [int]s: true division, [ZeroDivisionError] on zero.
    The quotient is kept as the exact rational, which Python rounds to
    the nearest float. *)
Definition py_truediv (a b : Z) : Result Q :=
  if b =? 0 then Raise "division by zero"
  else Ok (Qmake (Z.sgn b * a) (Z.to_pos (Z.abs b))).

(** [str.format] with keyword arguments, for templates whose replacement fields are
    plain names: [{{] and [}}] are escapes, [{name}] is replaced by the
    keyword argument [name] (the replacement text is not scanned again),
    a missing name is a [KeyError] and an unbalanced brace a
    [ValueError]. *)
Fixpoint kw_lookup (name : string) (kwargs : list (string * string)) : option string :=
  match kwargs with
  | [] => None
  | (k, v) :: rest => if String.eqb k name then Some v else kw_lookup name rest
  end.

Definition result_map {A B} (f : A → B) (r : Result A) : Result B :=
  match r with
  | Ok a => Ok (f a)
  | Raise e => Raise e
  end.

(** [field] is [None] in literal text and [Some name] inside a replacement
    field whose name has been read up to [name]. *)
Fixpoint str_format_go (kwargs : list (string * string)) (field : option string)
    (tpl : string) : Result string :=
  match field with
  | None =>
      match tpl with
      | EmptyString => Ok ""
      | String "{"%char (String "{"%char rest) =>
          result_map (String "{"%char) (str_format_go kwargs None rest)
      | String "}"%char (String "}"%char rest) =>
          result_map (String "}"%char) (str_format_go kwargs None rest)
      | String "{"%char rest => str_format_go kwargs (Some "") rest
      | String "}"%char _ => Raise "Single '}' encountered in format string"
      | String c rest => result_map (String c) (str_format_go kwargs None rest)
      end
  | Some name =>
      match tpl with
      | EmptyString => Raise "expected '}' before end of string"
      | String "}"%char rest =>
          match kw_lookup name kwargs with
          | Some v => result_map (String.append v) (str_format_go kwargs None rest)
          | None => Raise ("'" +:+ name +:+ "'")
          end
      | String "{"%char _ => Raise "unexpected '{' in field name"
      | String c rest =>
          str_format_go kwargs (Some (name +:+ String c EmptyString)) rest
      end
  end.

Definition str_format (tpl : string) (kwargs : list (string * string)) : Result string :=
  str_format_go kwargs None tpl.

(** ** Module constants *)

Definition DOCUMENT_ANALYSIS_PROMPT : string :=
"
Analyze this declassified JFK assassination document image in detail:

1. DOCUMENT IDENTIFICATION:
   - Document type (memo, report, telegram, etc.)
   - Classification level (Top Secret, Secret, Confidential, etc.)
   - Document date and reference numbers
   - Originating agency or department

2. KEY ENTITIES:
   - All individuals mentioned (full names and positions if available)
   - Organizations, agencies, and departments
   - Locations mentioned (cities, countries, specific places)

3. SUBJECT MATTER:
   - Main topic or purpose of the document
   - Key events described or referenced
   - Connections to the Kennedy assassination (if explicit)
   - Any mentioned dates of significance

4. INTELLIGENCE VALUE:
   - Notable facts or claims presented
   - Any redactions or apparent omissions
   - Connections to other known intelligence operations
   - Unusual or seemingly significant details

Format your response in clear sections using the categories above.
".

Definition SUMMARY_PROMPT_TEMPLATE : string :=
"
Create a comprehensive summary of this declassified JFK document based on the following page-by-page analysis:

{all_analysis}

Your summary should:
1. Identify the document type, date, and originating agency
2. Explain the primary subject matter and purpose
3. List all key individuals mentioned and their roles
4. Highlight the most significant revelations or intelligence
5. Note any apparent redactions or missing information
6. Explain connections to the Kennedy assassination investigation
7. Identify any notable inconsistencies or areas requiring further research

Format your summary with clear headings and bullet points for key findings.
".

(** ** The world the script acts on *)

(** A PIL image is determined by the encoded bytes it was opened from. *)
Definition Image := bytes.

Inductive Content :=
| Text (s : string)
| Picture (img : Image).

(** One call of [client.models.generate_content(model=..., contents=...)]. *)
Record Request := mkRequest {
  model : string;
  contents : list Content
}.

(** Streamlit widgets, in the order the script draws them.  The spinner
    shown while [process_pdf] runs goes away when it returns; it is not
    logged. *)
Inductive UiEvent :=
| StProgress (v : Q)
| StEmpty
| StText (s : string)
| StError (s : string)
| StTabs (labels : list string)
| StColumns (spec : list Z)
| StImage (img : bytes) (caption : string)
| StMarkdown (s : string)
| StDownloadButton (label data file_name mime : string).

Record World := mkWorld {
  files : gmap string (bytes);
  calls : list Request;
  ui : list UiEvent
}.

(** An opened PyMuPDF document: for every page, the outcome of
    [load_page], [get_pixmap(matrix=fitz.Matrix(2, 2))] and
    [tobytes("png")] on it. *)
Record Document := mkDocument {
  pages : list (Result (bytes))
}.

Definition page_count (doc : Document) : Z := Z.of_nat (length (pages doc)).

(** The dict appended to [results] for every page. *)
Record AnalysisResult := mkAnalysisResult {
  page_num : Z;
  analysis : string;
  image : bytes
}.

(** The uploaded file handed over by [st.file_uploader]. *)
Record UploadedFile := mkUploadedFile {
  name : string;
  getvalue : bytes
}.

(** ** The state and exception monad *)

Definition M (A : Type) : Type := World → Result A * World.

Global Instance M_ret : MRet M := λ A a w, (Ok a, w).
Global Instance M_bind : MBind M := λ A B f m w,
  match m w with
  | (Ok a, w') => f a w'
  | (Raise e, w') => (Raise e, w')
  end.

(** [try: body except Exception as e: handler(str(e))].  What the body
    did to the world before it raised stays done. *)
Definition try_except {A} (body : M A) (handler : Exn → M A) : M A := λ w,
  match body w with
  | (Ok a, w') => (Ok a, w')
  | (Raise e, w') => handler e w'
  end.

Definition lift {A} (r : Result A) : M A := λ w, (r, w).

Definition emit (ev : UiEvent) : M () := λ w,
  (Ok (), {| files := files w; calls := calls w; ui := ui w ++ [ev] |}).

(** [for x in xs: acc = body(x, acc)], stopping at the first exception. *)
Fixpoint for_each {A S} (xs : list A) (body : A → S → M S) (acc : S) : M S :=
  match xs with
  | [] => mret acc
  | x :: rest => acc' ← body x acc; for_each rest body acc'
  end.

(** [range(n)]. *)
Definition range (n : Z) : list Z := seqZ 0 n.

(** ** Streamlit, PyMuPDF, tempfile and the Gemini client *)

(** [st.progress(v)] and [progress_bar.progress(v)] refuse a fraction
    outside [0.0, 1.0]. *)
Definition st_progress (v : Q) : M () :=
  if Qle_bool 0 v && Qle_bool v 1 then emit (StProgress v)
  else lift (Raise "Progress Value has invalid value [0.0, 1.0]").

(** [doc.load_page(page_num)], [page.get_pixmap(matrix=fitz.Matrix(2, 2))]
    and [pix.tobytes("png")].  [range] only yields indices from 0 on. *)
Definition render_page (doc : Document) (page_num : Z) : Result bytes :=
  if page_num <? 0 then Raise "page not in document"
  else match pages doc !! Z.to_nat page_num with
       | Some r => r
       | None => Raise "page not in document"
       end.

(** [os.unlink(path)]. *)
Definition os_unlink (path : string) : M () := λ w,
  match files w !! path with
  | Some _ => (Ok (), {| files := delete path (files w); calls := calls w; ui := ui w |})
  | None => (Raise ("[Errno 2] No such file or directory: '" +:+ path +:+ "'"), w)
  end.

(** ** Pure parts of the script *)

Definition pages_to_analyze (max_pages total_pages : Z) : Z :=
  if max_pages =? 0 then total_pages else Z.min max_pages total_pages.

(** The text stored for a page, from the outcome of its request. *)
Definition analysis_text (outcome : Result string) : string :=
  match outcome with
  | Ok text => text
  | Raise e => "Error analyzing this page: " +:+ e
  end.

(** The widgets a page draws while it is processed. *)
Definition page_events (to_analyze : Z) (i : Z) : list UiEvent :=
  [StText ("Processing page " +:+ str_int (i + 1) +:+ " of "
           +:+ str_int to_analyze +:+ "...");
   StProgress (Qmake (i + 1) (Z.to_pos to_analyze))].

(** [f"**Page {r['page_num']}**:\n{r['analysis']}"]. *)
Definition page_block (r : AnalysisResult) : string :=
  "**Page " +:+ str_int (page_num r) +:+ "**:" +:+ LF +:+ analysis r.

Definition all_analysis (results : list AnalysisResult) : string :=
  str_join (LF +:+ LF) (page_block <$> results).

(** The f-string assigned to [full_report]. *)
Definition full_report (filename summary all : string) : string :=
  "# JFK Document Analysis: " +:+ filename +:+ LF +:+ LF +:+ "## Summary"
  +:+ LF +:+ LF +:+ summary +:+ LF +:+ LF +:+ "## Page-by-Page Analysis"
  +:+ LF +:+ LF +:+ all.

(** The f-string assigned to [text_data]. *)
Definition text_data (r : AnalysisResult) : string :=
  "# Analysis of Page " +:+ str_int (page_num r) +:+ LF +:+ LF +:+ analysis r.

(** [results[i]]. *)
Definition getitem (results : list AnalysisResult) (i : nat) : Result AnalysisResult :=
  match results !! i with
  | Some r => Ok r
  | None => Raise "list index out of range"
  end.

(** The widgets of one tab. *)
Definition tab_events (r : AnalysisResult) : list UiEvent :=
  [StColumns [1; 1];
   StImage (image r) ("Page " +:+ str_int (page_num r));
   StMarkdown "### AI Analysis";
   StMarkdown (analysis r);
   StDownloadButton "Download Analysis"
     ("# Analysis of Page " +:+ str_int (page_num r) +:+ LF +:+ LF +:+ analysis r)
     ("analysis_page_" +:+ str_int (page_num r) +:+ ".txt") "text/plain"].

Module App.
Section Pipeline.

(** The name [tempfile] picks for a new file with the given suffix,
    from the files that exist. *)
Variable mkstemp : gmap string bytes → string → string.

(** What PyMuPDF makes of the bytes of a file. *)
Variable fitz_decode : bytes → Result Document.

(** [Image.open(io.BytesIO(img_bytes))]. *)
Variable Image_open : bytes → Result Image.

(** The remote model behind the global [client]: its answer to a request
    may depend on every request it has served before. *)
Variable gemini : list Request → Request → Result string.

(** The model selected in the sidebar. *)
Variable model_choice : string.

(** [with tempfile.NamedTemporaryFile(delete=False, suffix=...) as tmp_file:
    tmp_file.write(data); tmp_path = tmp_file.name], when the file is
    created and written; the other outcomes are in [process_pdf_io]. *)
Definition NamedTemporaryFile_write (suffix : string) (data : bytes) : M string := λ w,
  let tmp_path := mkstemp (files w) suffix in
  (Ok tmp_path,
   {| files := <[tmp_path := data]> (files w); calls := calls w; ui := ui w |}).

(** [fitz.open(path)]. *)
Definition fitz_open (path : string) : M Document := λ w,
  match files w !! path with
  | Some data => (fitz_decode data, w)
  | None => (Raise ("no such file: '" +:+ path +:+ "'"), w)
  end.

(** [client.models.generate_content(model=m, contents=cs).text]. *)
Definition generate_content (m : string) (cs : list Content) : M string := λ w,
  let req := mkRequest m cs in
  (gemini (calls w) req,
   {| files := files w; calls := calls w ++ [req]; ui := ui w |}).

(** The body of the [for page_num in range(pages_to_analyze)] loop;
    [results] is the list built so far. *)
Definition process_page (doc : Document) (prompt : string) (to_analyze : Z)
    (page_num : Z) (results : list AnalysisResult) : M (list AnalysisResult) :=
  emit (StText ("Processing page " +:+ str_int (page_num + 1) +:+ " of "
                +:+ str_int to_analyze +:+ "...")) ;;
  img_bytes ← lift (render_page doc page_num) ;
  image ← lift (Image_open img_bytes) ;
  results ← try_except
    (response ← generate_content model_choice [Text prompt; Picture image] ;
     mret (results ++ [mkAnalysisResult (page_num + 1) response img_bytes]))
    (λ e,
     mret (results ++ [mkAnalysisResult (page_num + 1)
                         ("Error analyzing this page: " +:+ e) img_bytes])) ;
  v ← lift (py_truediv (page_num + 1) to_analyze) ;
  st_progress v ;;
  mret results.

Definition process_pdf (pdf_file : UploadedFile) (max_pages : Z) (prompt : string)
    : M (list AnalysisResult) :=
  let results := [] in
  tmp_path ← NamedTemporaryFile_write ".pdf" (getvalue pdf_file) ;
  try_except
    (doc ← fitz_open tmp_path ;
     let total_pages := page_count doc in
     let to_analyze := pages_to_analyze max_pages total_pages in
     st_progress 0 ;;
     emit StEmpty ;;
     results ← for_each (range to_analyze) (process_page doc prompt to_analyze) results ;
     emit (StText "Processing complete!") ;;
     (* doc.close() *)
     os_unlink tmp_path ;;
     mret results)
    (λ e,
     emit (StError ("Error processing PDF: " +:+ e)) ;;
     mret []).

(** *** What a run depends on

    The outcome of [process_pdf] is determined by what the renderer
    makes of the pages it is asked for and by what the model answers.
    The functions below compute both, outside the monad; the theorems
    relate them to the run itself. *)

(** Rendering one page and opening the image, as the loop body does. *)
Definition open_page (doc : Document) (page_num : Z) : Result (bytes * Image) :=
  match render_page doc page_num with
  | Ok img_bytes =>
      match Image_open img_bytes with
      | Ok image => Ok (img_bytes, image)
      | Raise e => Raise e
      end
  | Raise e => Raise e
  end.

(** Rendering the pages [idx] in order: all of them, or the first failure. *)
Fixpoint render_pages (doc : Document) (idx : list Z) : Result (list (bytes * Image)) :=
  match idx with
  | [] => Ok []
  | i :: rest =>
      match open_page doc i with
      | Ok p => result_map (cons p) (render_pages doc rest)
      | Raise e => Raise e
      end
  end.

Definition page_request (prompt : string) (p : bytes * Image) : Request :=
  mkRequest model_choice [Text prompt; Picture p.2].

(** The answers of the model to the requests [reqs], sent one after the
    other once it has served [history]. *)
Fixpoint replay (history : list Request) (reqs : list Request) : list (Result string) :=
  match reqs with
  | [] => []
  | req :: rest => gemini history req :: replay (history ++ [req]) rest
  end.

(** The results of the pages [idx], rendered as [rendered], when the
    model has served [history] before. *)
Fixpoint entries (prompt : string) (idx : list Z) (rendered : list (bytes * Image))
    (history : list Request) : list AnalysisResult :=
  match idx, rendered with
  | i :: idx', p :: rendered' =>
      mkAnalysisResult (i + 1)
        (analysis_text (gemini history (page_request prompt p))) p.1
      :: entries prompt idx' rendered' (history ++ [page_request prompt p])
  | _, _ => []
  end.

(** *** The "Analyze Document" button *)

(** The body of [for i, tab in enumerate(tabs)]. *)
Definition show_tab (results : list AnalysisResult) (i : nat) (_ : ()) : M () :=
  emit (StColumns [1; 1]) ;;
  r ← lift (getitem results i) ;
  emit (StImage (image r) ("Page " +:+ str_int (page_num r))) ;;
  emit (StMarkdown "### AI Analysis") ;;
  emit (StMarkdown (analysis r)) ;;
  emit (StDownloadButton "Download Analysis" (text_data r)
          ("analysis_page_" +:+ str_int (page_num r) +:+ ".txt") "text/plain").

(** The summary and the full report, under their own [try]. *)
Definition summarize (uploaded_file : UploadedFile) (all : string) : M () :=
  try_except
    (summary_prompt ← lift (str_format SUMMARY_PROMPT_TEMPLATE [("all_analysis", all)]) ;
     summary ← generate_content model_choice [Text summary_prompt] ;
     emit (StMarkdown summary) ;;
     emit (StDownloadButton "Download Full Report"
             (full_report (name uploaded_file) summary all)
             ("jfk_analysis_" +:+ name uploaded_file +:+ ".txt") "text/plain"))
    (λ e, emit (StError ("Error generating summary: " +:+ e))).

(** What the script does once [st.button("Analyze Document")] is true. *)
Definition analyze_document (uploaded_file : UploadedFile) (max_pages : Z)
    (user_prompt : string) : M () :=
  results ← process_pdf uploaded_file max_pages user_prompt ;
  match results with
  | [] => mret ()
  | _ :: _ =>
      let tabs := (λ r, "Page " +:+ str_int (page_num r)) <$> results in
      emit (StTabs tabs) ;;
      for_each (seq 0 (length tabs)) (show_tab results) () ;;
      emit (StMarkdown "---") ;;
      emit (StMarkdown "## Document Summary") ;;
      summarize uploaded_file (all_analysis results)
  end.

(** *** The "Analyze Image" button *)

(** What the script does once [st.button("Analyze Image")] is true, all
    of it under one [try].  The text of the answer is taken with the
    call, as a string; the preview of the upload, drawn before the
    button, is not part of it. *)
Definition analyze_image (uploaded_image : UploadedFile) (user_prompt : string) : M () :=
  try_except
    (image ← lift (Image_open (getvalue uploaded_image)) ;
     response ← generate_content model_choice [Text user_prompt; Picture image] ;
     emit (StMarkdown "### AI Analysis") ;;
     emit (StMarkdown response) ;;
     emit (StDownloadButton "Download Analysis" response
             "jfk_image_analysis.txt" "text/plain"))
    (λ e, emit (StError ("Error analyzing image: " +:+ e))).

(** *** Creating the temporary file

    [tempfile.NamedTemporaryFile] and [tmp_file.write] run before the
    [try] of [process_pdf], so what they raise leaves the function.
    [NamedTemporaryFile_write] is their successful outcome; here the
    outcomes in which the file cannot be created, or is created and
    cannot be written in full, are spelled out. *)
Inductive TmpOutcome :=
| Written
| CreateFailed (e : Exn)
| WriteFailed (e : Exn) (partial : bytes).

(** What becomes of creating a file with the given suffix and writing
    the given bytes to it, from the files that exist. *)
Variable tmpfile_outcome : gmap string bytes → string → bytes → TmpOutcome.

(** [process_pdf] with every outcome of its first three lines. *)
Definition process_pdf_io (pdf_file : UploadedFile) (max_pages : Z) (prompt : string)
    : M (list AnalysisResult) := λ w,
  match tmpfile_outcome (files w) ".pdf" (getvalue pdf_file) with
  | Written => process_pdf pdf_file max_pages prompt w
  | CreateFailed e => (Raise e, w)
  | WriteFailed e partial =>
      (Raise e,
       {| files := <[mkstemp (files w) ".pdf" := partial]> (files w);
          calls := calls w; ui := ui w |})
  end.

(** The "Analyze Document" button with every outcome of the first three
    lines of [process_pdf]: the call of [process_pdf] is under no [try]. *)
Definition analyze_document_io (uploaded_file : UploadedFile) (max_pages : Z)
    (user_prompt : string) : M () := λ w,
  match tmpfile_outcome (files w) ".pdf" (getvalue uploaded_file) with
  | Written => analyze_document uploaded_file max_pages user_prompt w
  | CreateFailed e => (Raise e, w)
  | WriteFailed e partial =>
      (Raise e,
       {| files := <[mkstemp (files w) ".pdf" := partial]> (files w);
          calls := calls w; ui := ui w |})
  end.

End Pipeline.
End App.

(** ** Reading the logs *)

(** The fractions shown by the progress bar, in order. *)
Definition progress_values (events : list UiEvent) : list Q :=
  events ≫= λ ev, match ev with StProgress v => [v] | _ => [] end.

(** The file names offered by the download buttons, in order. *)
Definition download_names (events : list UiEvent) : list string :=
  events ≫= λ ev, match ev with StDownloadButton _ _ file_name _ => [file_name] | _ => [] end.

(** A model that answers with the placeholder text where [gemini] fails. *)
Definition placeholder_model (gemini : list Request → Request → Result string)
    (history : list Request) (req : Request) : Result string :=
  match gemini history req with
  | Ok text => Ok text
  | Raise e => Ok ("Error analyzing this page: " +:+ e)
  end.

(** The text of [SUMMARY_PROMPT_TEMPLATE] before and after its only
    replacement field. *)
Definition SUMMARY_HEAD : string :=
"
Create a comprehensive summary of this declassified JFK document based on the following page-by-page analysis:

".

Definition SUMMARY_TAIL : string :=
"

Your summary should:
1. Identify the document type, date, and originating agency
2. Explain the primary subject matter and purpose
3. List all key individuals mentioned and their roles
4. Highlight the most significant revelations or intelligence
5. Note any apparent redactions or missing information
6. Explain connections to the Kennedy assassination investigation
7. Identify any notable inconsistencies or areas requiring further research

Format your summary with clear headings and bullet points for key findings.
".

(** ** The formats of the design document

    The design document words the aggregate text and the full report
    differently from the script; these are its formats, to compare. *)

(** "Page {index}: {text}". *)
Definition spec_page_block (r : AnalysisResult) : string :=
  "Page " +:+ str_int (page_num r) +:+ ": " +:+ analysis r.

Definition spec_all_analysis (results : list AnalysisResult) : string :=
  str_join (LF +:+ LF) (spec_page_block <$> results).

(** "# Document Analysis: {filename}\n\n## Summary\n\n{summary}\n\n##
    Page-by-Page Analysis\n\n{joined per-page text}". *)
Definition spec_full_report (filename summary joined : string) : string :=
  "# Document Analysis: " +:+ filename +:+ LF +:+ LF +:+ "## Summary"
  +:+ LF +:+ LF +:+ summary +:+ LF +:+ LF +:+ "## Page-by-Page Analysis"
  +:+ LF +:+ LF +:+ joined.

(** ** A small test double

    Every byte of the uploaded file is one page; a file that starts with
    [xff] does not open, page [x00] does not render, the model refuses
    page [x0b] and answers every other page with ["OK-"] and the page's
    byte in decimal. *)
Module Stub.

Definition mkstemp (fs : gmap string bytes) (suffix : string) : string :=
  "/tmp/tmpjfk" +:+ suffix.

Definition page_of_byte (b : Byte.byte) : Result bytes :=
  match b with
  | Byte.x00 => Raise "cannot render page"
  | _ => Ok [b]
  end.

Definition fitz_decode (data : bytes) : Result Document :=
  match data with
  | Byte.xff :: _ => Raise "cannot open broken document"
  | _ => Ok (mkDocument (page_of_byte <$> data))
  end.

Definition Image_open (img_bytes : bytes) : Result Image := Ok img_bytes.

Definition gemini (history : list Request) (req : Request) : Result string :=
  match contents req with
  | [Text _; Picture [Byte.x0b]] => Raise "429 quota exceeded"
  | [Text _; Picture [b]] => Ok ("OK-" +:+ str_int (Z.of_N (Byte.to_N b)))
  | [Text _] => if String.eqb (model req) "gemini-pro-vision"
                then Raise "404 model not found" else Ok "SUM"
  | _ => Raise "400 bad request"
  end.

Definition world0 : World := mkWorld ∅ [] [].

Definition flash : string := "gemini-1.5-flash".

(** Three pages; the model refuses the second. *)
Definition three_pages : UploadedFile :=
  mkUploadedFile "a.pdf" [Byte.x01; Byte.x0b; Byte.x03].

(** Two pages; the model refuses the second. *)
Definition two_pages : UploadedFile :=
  mkUploadedFile "a.pdf" [Byte.x01; Byte.x0b].

(** Three pages; the second does not render. *)
Definition torn_page : UploadedFile :=
  mkUploadedFile "b.pdf" [Byte.x01; Byte.x00; Byte.x03].

(** Not a PDF. *)
Definition broken : UploadedFile :=
  mkUploadedFile "c.pdf" [Byte.xff; Byte.x01].

(** A PDF without pages. *)
Definition no_page : UploadedFile := mkUploadedFile "d.pdf" [].

Definition one_page : UploadedFile := mkUploadedFile "a.pdf" [Byte.x01].

Definition document_of (pdf_file : UploadedFile) : Document :=
  mkDocument (page_of_byte <$> getvalue pdf_file).

Definition analyze_image := App.analyze_image Image_open gemini.

(** Another file already on disk. *)
Definition busy_world : World :=
  mkWorld {["/home/app/.env" := [Byte.x41]]} [] [].

(** Rounding down to a multiple of 1/8, in place of the rounding of
    Python's float division. *)
Definition round_eighths (q : Q) : Q := Qmake (Qfloor (q * 8)) 8.

Definition process_pdf := App.process_pdf mkstemp fitz_decode Image_open gemini.
Definition analyze_document := App.analyze_document mkstemp fitz_decode Image_open gemini.

End Stub.


(** ** Python values: facts *)

Lemma str_format_summary_template (all : string) :
  str_format SUMMARY_PROMPT_TEMPLATE [("all_analysis", all)]
  = Ok (SUMMARY_HEAD +:+ all +:+ SUMMARY_TAIL).
Proof. reflexivity. Qed.

Lemma py_truediv_pos (a b : Z) :
  0 < b → py_truediv a b = Ok (Qmake a (Z.to_pos b)).
Proof.
  intros Hb. unfold py_truediv.
  destruct (Z.eqb_spec b 0) as [->|_]; [lia|].
  rewrite Z.sgn_pos, Z.abs_eq by lia. by rewrite Z.mul_1_l.
Qed.

Lemma fraction_in_unit_interval (a b : Z) :
  0 ≤ a ≤ b → 0 < b →
  Qle_bool 0 (Qmake a (Z.to_pos b)) && Qle_bool (Qmake a (Z.to_pos b)) 1 = true.
Proof.
  intros Ha Hb. apply andb_true_iff. split; apply Qle_bool_iff; unfold Qle; simpl.
  - lia.
  - rewrite Z2Pos.id by lia. lia.
Qed.

(** ** The monad: facts *)

Ltac unfold_monad :=
  unfold mbind, M_bind, mret, M_ret, try_except, lift, emit in *.

Lemma st_progress_fraction (a b : Z) (w : World) :
  0 ≤ a ≤ b → 0 < b →
  st_progress (Qmake a (Z.to_pos b)) w
  = (Ok (), mkWorld (files w) (calls w) (ui w ++ [StProgress (Qmake a (Z.to_pos b))])).
Proof.
  intros Ha Hb. unfold st_progress.
  by rewrite fraction_in_unit_interval.
Qed.

Lemma last_app_snoc {A} (l1 l2 : list A) (x : A) : last (l1 ++ l2 ++ [x]) = Some x.
Proof. by rewrite !app_assoc, last_snoc. Qed.

(** ** The pipeline: facts *)

Section PipelineFacts.

Variable mkstemp : gmap string bytes → string → string.
Variable fitz_decode : bytes → Result Document.
Variable Image_open : bytes → Result Image.
Variable gemini : list Request → Request → Result string.
Variable model_choice : string.

Local Abbreviation process_page := (App.process_page Image_open gemini model_choice).
Local Abbreviation process_pdf := (App.process_pdf mkstemp fitz_decode Image_open gemini model_choice).
Local Abbreviation analyze_document := (App.analyze_document mkstemp fitz_decode Image_open gemini model_choice).
Local Abbreviation summarize := (App.summarize gemini model_choice).
Local Abbreviation open_page := (App.open_page Image_open).
Local Abbreviation render_pages := (App.render_pages Image_open).
Local Abbreviation page_request := (App.page_request model_choice).
Local Abbreviation replay := (App.replay gemini).
Local Abbreviation entries := (App.entries gemini model_choice).

Lemma open_page_Ok (doc : Document) (i : Z) (p : bytes * Image) :
  open_page doc i = Ok p ↔ render_page doc i = Ok p.1 ∧ Image_open p.1 = Ok p.2.
Proof.
  unfold App.open_page. destruct p as [b im]; simpl.
  destruct (render_page doc i) as [b'|e].
  - destruct (Image_open b') as [im'|e] eqn:Him.
    + split; [intros [= -> ->]; by split|].
      intros [[= ->] Him']. congruence.
    + split; [done|]. intros [[= ->] Him']. congruence.
  - split; [done|]. by intros [? _].
Qed.

(** One turn of the loop on a page that renders. *)
Lemma process_page_rendered doc prompt n i p acc (w : World) :
  0 ≤ i < n →
  open_page doc i = Ok p →
  process_page doc prompt n i acc w
  = (Ok (acc ++ [mkAnalysisResult (i + 1)
                   (analysis_text (gemini (calls w) (page_request prompt p))) p.1]),
     mkWorld (files w) (calls w ++ [page_request prompt p])
             (ui w ++ page_events n i)).
Proof.
  intros Hi [Hr Ho]%open_page_Ok. unfold App.process_page.
  unfold_monad. simpl. rewrite Hr, Ho. unfold App.generate_content; simpl.
  rewrite py_truediv_pos by lia.
  unfold App.page_request.
  destruct (gemini _ _) as [text|e]; simpl;
    rewrite st_progress_fraction by lia; simpl;
    by rewrite <- app_assoc.
Qed.

(** One turn of the loop on a page that does not render: the exception
    leaves the loop, before any request for that page. *)
Lemma process_page_not_rendered doc prompt n i e acc (w : World) :
  open_page doc i = Raise e →
  process_page doc prompt n i acc w
  = (Raise e,
     mkWorld (files w) (calls w)
       (ui w ++ [StText ("Processing page " +:+ str_int (i + 1) +:+ " of "
                         +:+ str_int n +:+ "...")])).
Proof.
  unfold App.open_page, App.process_page. intros H.
  unfold_monad. simpl.
  destruct (render_page doc i) as [b|e']; [|by inversion H].
  destruct (Image_open b) as [im|e']; [done|by inversion H].
Qed.

Lemma render_pages_length doc idx rendered :
  render_pages doc idx = Ok rendered → length rendered = length idx.
Proof.
  revert rendered. induction idx as [|i idx IH]; intros rendered; simpl.
  - by intros [= <-].
  - destruct (open_page doc i) as [p|e]; [|done].
    destruct (render_pages doc idx) as [ps|e]; [|done].
    intros [= <-]. simpl. f_equal. by apply IH.
Qed.

(** The loop over pages that all render: one result and one request per
    page, in order. *)
Lemma for_each_rendered doc prompt n idx rendered acc (w : World) :
  Forall (λ i, 0 ≤ i < n) idx →
  render_pages doc idx = Ok rendered →
  for_each idx (process_page doc prompt n) acc w
  = (Ok (acc ++ entries prompt idx rendered (calls w)),
     mkWorld (files w) (calls w ++ (page_request prompt <$> rendered))
             (ui w ++ (idx ≫= page_events n))).
Proof.
  revert rendered acc w.
  induction idx as [|i idx IH]; intros rendered acc w Hidx; simpl.
  - intros [= <-]. simpl. rewrite !app_nil_r. by destruct w.
  - apply Forall_cons in Hidx as [Hi Hidx].
    destruct (open_page doc i) as [p|e] eqn:Hp; [|done].
    destruct (render_pages doc idx) as [ps|e] eqn:Hps; [|done].
    intros [= <-]. unfold mbind at 1, M_bind.
    rewrite (process_page_rendered _ _ _ _ p) by done.
    rewrite (IH ps) by done. simpl.
    by rewrite <- !app_assoc.
Qed.

(** The loop over pages of which one does not render: the exception of
    the first such page leaves the loop; no file is touched. *)
Lemma for_each_not_rendered doc prompt n idx e acc (w : World) :
  Forall (λ i, 0 ≤ i < n) idx →
  render_pages doc idx = Raise e →
  ∃ w', for_each idx (process_page doc prompt n) acc w = (Raise e, w')
        ∧ files w' = files w.
Proof.
  revert acc w.
  induction idx as [|i idx IH]; intros acc w Hidx; simpl; [done|].
  apply Forall_cons in Hidx as [Hi Hidx].
  destruct (open_page doc i) as [p|e'] eqn:Hp.
  - destruct (render_pages doc idx) as [ps|e'] eqn:Hps; [done|].
    intros [= ->]. unfold mbind at 1, M_bind.
    rewrite (process_page_rendered _ _ _ _ p) by done.
    destruct (IH (acc ++ [mkAnalysisResult (i + 1)
                   (analysis_text (gemini (calls w) (page_request prompt p))) p.1])
                (mkWorld (files w) (calls w ++ [page_request prompt p])
                         (ui w ++ page_events n i)) Hidx eq_refl)
      as (w' & Hrun & Hfiles).
    exists w'. by rewrite Hrun.
  - intros [= ->]. unfold mbind at 1, M_bind.
    rewrite (process_page_not_rendered _ _ _ _ e) by done.
    eexists. by split.
Qed.

(** *** The results of a completed run *)

Lemma entries_length prompt idx rendered h :
  length rendered = length idx →
  length (entries prompt idx rendered h) = length idx.
Proof.
  revert rendered h. induction idx as [|i idx IH]; intros [|p ps] h; simpl; try done.
  intros [= Hlen]. f_equal. by apply IH.
Qed.

Lemma entries_page_num prompt idx rendered h :
  length rendered = length idx →
  page_num <$> entries prompt idx rendered h = (λ i, i + 1) <$> idx.
Proof.
  revert rendered h. induction idx as [|i idx IH]; intros [|p ps] h; simpl; try done.
  intros [= Hlen]. f_equal. by apply IH.
Qed.

Lemma entries_image prompt idx rendered h :
  length rendered = length idx →
  image <$> entries prompt idx rendered h = fst <$> rendered.
Proof.
  revert rendered h. induction idx as [|i idx IH]; intros [|p ps] h; simpl; try done.
  intros [= Hlen]. f_equal. by apply IH.
Qed.

Lemma entries_analysis prompt idx rendered h :
  length rendered = length idx →
  analysis <$> entries prompt idx rendered h
  = analysis_text <$> replay h (page_request prompt <$> rendered).
Proof.
  revert rendered h. induction idx as [|i idx IH]; intros [|p ps] h; simpl; try done.
  intros [= Hlen]. f_equal. by apply IH.
Qed.

Lemma entries_history_irrelevant prompt idx rendered h h' :
  (∀ h1 h2 req, gemini h1 req = gemini h2 req) →
  entries prompt idx rendered h = entries prompt idx rendered h'.
Proof.
  intros Hdet. revert rendered h h'.
  induction idx as [|i idx IH]; intros [|p ps] h h'; simpl; try done.
  rewrite (Hdet h h'). f_equal. apply IH.
Qed.

Lemma render_pages_lookup doc idx rendered (j : nat) i p :
  render_pages doc idx = Ok rendered →
  idx !! j = Some i → rendered !! j = Some p →
  render_page doc i = Ok p.1 ∧ Image_open p.1 = Ok p.2.
Proof.
  revert rendered j. induction idx as [|i' idx IH]; intros rendered j; simpl; [done|].
  destruct (open_page doc i') as [p'|e] eqn:Hp; [|done].
  destruct (render_pages doc idx) as [ps|e]; [|done].
  intros [= <-]. destruct j as [|j]; simpl.
  - intros [= ->] [= ->]. by apply open_page_Ok.
  - by apply IH.
Qed.

Lemma range_succ (n : Z) : (λ i, i + 1) <$> range n = seqZ 1 n.
Proof.
  unfold range. change (seqZ 1 n) with (seqZ (1 + 0) n).
  rewrite <- fmap_add_seqZ.
  apply list_fmap_ext. intros _ i _. lia.
Qed.

Lemma length_range (n : Z) : 0 ≤ n → Z.of_nat (length (range n)) = n.
Proof. intros Hn. unfold range. rewrite length_seqZ. lia. Qed.

Lemma range_bounds (n : Z) : Forall (λ i, 0 ≤ i < n) (range n).
Proof. apply Forall_seqZ. lia. Qed.

(** A run in which the document opens and every page asked for renders. *)
Lemma process_pdf_completes (w : World) pdf_file max_pages prompt doc rendered :
  let n := pages_to_analyze max_pages (page_count doc) in
  let tmp_path := mkstemp (files w) ".pdf" in
  fitz_decode (getvalue pdf_file) = Ok doc →
  render_pages doc (range n) = Ok rendered →
  process_pdf pdf_file max_pages prompt w
  = (Ok (entries prompt (range n) rendered (calls w)),
     mkWorld (delete tmp_path (<[tmp_path := getvalue pdf_file]> (files w)))
             (calls w ++ (page_request prompt <$> rendered))
             (ui w ++ [StProgress 0; StEmpty] ++ (range n ≫= page_events n)
                   ++ [StText "Processing complete!"])).
Proof.
  intros n tmp_path Hdoc Hren. unfold App.process_pdf.
  unfold mbind at 1, M_bind, App.NamedTemporaryFile_write, try_except.
  unfold mbind at 1, M_bind, App.fitz_open. simpl.
  rewrite lookup_insert_eq, Hdoc.
  unfold mbind at 1, M_bind. simpl.
  unfold mbind at 1, M_bind. simpl.
  unfold mbind at 1, M_bind.
  fold n. rewrite (for_each_rendered _ _ _ _ rendered) by auto using range_bounds.
  unfold_monad. unfold os_unlink. simpl.
  fold tmp_path. rewrite lookup_insert_eq.
  by rewrite <- !app_assoc.
Qed.

(** A run in which the document does not open, or a page asked for does
    not render: the handler of the outer [try] reports the error and
    returns the empty list; the temporary file is still there. *)
Lemma process_pdf_aborts (w : World) pdf_file max_pages prompt e :
  let tmp_path := mkstemp (files w) ".pdf" in
  (fitz_decode (getvalue pdf_file) = Raise e
   ∨ ∃ doc, fitz_decode (getvalue pdf_file) = Ok doc
            ∧ render_pages doc (range (pages_to_analyze max_pages (page_count doc)))
              = Raise e) →
  ∃ w', process_pdf pdf_file max_pages prompt w = (Ok [], w')
        ∧ files w' = <[tmp_path := getvalue pdf_file]> (files w)
        ∧ last (ui w') = Some (StError ("Error processing PDF: " +:+ e)).
Proof.
  intros tmp_path Hfail. unfold App.process_pdf.
  unfold mbind at 1, M_bind, App.NamedTemporaryFile_write, try_except.
  unfold mbind at 1, M_bind, App.fitz_open. simpl.
  rewrite lookup_insert_eq.
  destruct Hfail as [Hdoc|(doc & Hdoc & Hren)]; rewrite Hdoc.
  - unfold_monad. simpl. eexists. split; [done|]. split; [done|].
    simpl. by rewrite last_snoc.
  - unfold mbind at 1, M_bind. simpl.
    unfold mbind at 1, M_bind. simpl.
    unfold mbind at 1, M_bind.
    edestruct (for_each_not_rendered doc prompt) as (w' & -> & Hfiles);
      [apply range_bounds|exact Hren|].
    unfold_monad. simpl. eexists. split; [done|]. split; [done|].
    simpl. by rewrite last_snoc.
Qed.

Lemma render_pages_fails doc idx i e :
  i ∈ idx → open_page doc i = Raise e → ∃ e', render_pages doc idx = Raise e'.
Proof.
  intros Hin Hi. induction idx as [|i' idx IH]; simpl.
  - by apply elem_of_nil in Hin.
  - destruct (open_page doc i') as [p|e'] eqn:Hp; [|by eexists].
    apply elem_of_cons in Hin as [->|Hin]; [congruence|].
    destruct (IH Hin) as [e' ->]. by eexists.
Qed.

Lemma process_pdf_world_independent (w w' : World) pdf_file max_pages prompt :
  (∀ h1 h2 req, gemini h1 req = gemini h2 req) →
  (process_pdf pdf_file max_pages prompt w).1
  = (process_pdf pdf_file max_pages prompt w').1.
Proof.
  intros Hdet.
  destruct (fitz_decode (getvalue pdf_file)) as [doc|e] eqn:Hdoc.
  - destruct (render_pages doc (range (pages_to_analyze max_pages (page_count doc))))
      as [rendered|e] eqn:Hren.
    + rewrite !(process_pdf_completes _ _ _ _ doc rendered) by done. simpl.
      f_equal. by apply entries_history_irrelevant.
    + destruct (process_pdf_aborts w pdf_file max_pages prompt e) as (? & -> & _);
        [right; eauto|].
      destruct (process_pdf_aborts w' pdf_file max_pages prompt e) as (? & -> & _);
        [right; eauto|].
      done.
  - destruct (process_pdf_aborts w pdf_file max_pages prompt e) as (? & -> & _);
      [by left|].
    destruct (process_pdf_aborts w' pdf_file max_pages prompt e) as (? & -> & _);
      [by left|].
    done.
Qed.

(** *** The page limit *)

(** C2, amended.  When the document opens with [P] pages and every page
    asked for renders, a run with a page limit [L ≥ 0] returns one result per
    processed page and sends one request per processed page: [P] of
    them when [L = 0], [min(L, P)] when [L > 0]; the results are those
    of pages 1, 2, ... in order, each with the rendering of its page. *)
Theorem page_limit_decides_page_count (w : World) pdf_file max_pages prompt doc rendered :
  0 ≤ max_pages →
  fitz_decode (getvalue pdf_file) = Ok doc →
  render_pages doc (range (pages_to_analyze max_pages (page_count doc))) = Ok rendered →
  ∃ results w',
    process_pdf pdf_file max_pages prompt w = (Ok results, w')
    ∧ (max_pages = 0 → Z.of_nat (length results) = page_count doc)
    ∧ (0 < max_pages →
       Z.of_nat (length results) = Z.min max_pages (page_count doc))
    ∧ page_num <$> results = seqZ 1 (Z.of_nat (length results))
    ∧ image <$> results = fst <$> rendered
    ∧ length rendered = length results
    ∧ calls w' = calls w ++ (page_request prompt <$> rendered).
Proof.
  intros HL Hdoc Hren.
  pose proof (render_pages_length _ _ _ Hren) as Hlen.
  eexists _, _. split; [by apply (process_pdf_completes _ _ _ _ doc rendered)|].
  rewrite entries_length, entries_page_num, entries_image, range_succ by done.
  assert (0 ≤ pages_to_analyze max_pages (page_count doc)) as Hn.
  { unfold pages_to_analyze, page_count. destruct (max_pages =? 0); lia. }
  rewrite length_range by done.
  unfold pages_to_analyze.
  repeat split; try done.
  - intros ->. done.
  - intros Hpos. destruct (Z.eqb_spec max_pages 0); [lia|done].
Qed.

(** *** Order of the results *)

(** C5.  In a run that completes (the document opens and every page
    asked for renders), the result at position [j] (from 0) has page
    index [j + 1] and carries the rendering of page [j] of the
    document, so the page indices are 1, 2, 3, ... without gap or
    repetition and strictly ascending; the number of results is at most
    the page count, and at most the page limit when that is positive. *)
Theorem analysis_set_ordered (w : World) pdf_file max_pages prompt doc rendered :
  fitz_decode (getvalue pdf_file) = Ok doc →
  render_pages doc (range (pages_to_analyze max_pages (page_count doc))) = Ok rendered →
  ∃ results w',
    process_pdf pdf_file max_pages prompt w = (Ok results, w')
    ∧ (∀ (j : nat) r, results !! j = Some r →
         page_num r = Z.of_nat j + 1
         ∧ render_page doc (page_num r - 1) = Ok (image r))
    ∧ (∀ (j k : nat) rj rk, results !! j = Some rj → results !! k = Some rk →
         (j < k)%nat → page_num rj < page_num rk)
    ∧ NoDup (page_num <$> results)
    ∧ Z.of_nat (length results) ≤ page_count doc
    ∧ (0 < max_pages →
       Z.of_nat (length results) ≤ Z.min max_pages (page_count doc)).
Proof.
  intros Hdoc Hren.
  pose proof (render_pages_length _ _ _ Hren) as Hlen.
  set (n := pages_to_analyze max_pages (page_count doc)) in *.
  set (results := entries prompt (range n) rendered (calls w)).
  exists results. eexists.
  split; [by apply (process_pdf_completes _ _ _ _ doc rendered)|].
  assert (page_num <$> results = seqZ 1 n) as Hnum.
  { unfold results. by rewrite entries_page_num, range_succ. }
  assert (image <$> results = fst <$> rendered) as Himg.
  { unfold results. by rewrite entries_image. }
  assert (∀ (j : nat) r, results !! j = Some r → page_num r = Z.of_nat j + 1) as Hidx.
  { intros j r Hj.
    assert ((page_num <$> results) !! j = Some (page_num r)) as Hj'
      by by rewrite list_lookup_fmap, Hj.
    rewrite Hnum in Hj'. apply lookup_seqZ in Hj'. lia. }
  assert (length results = length (range n)) as Hres
    by by apply entries_length.
  unfold range in Hres. rewrite length_seqZ in Hres.
  split; [|split; [|split; [|split]]].
  - intros j r Hj. split; [by apply Hidx|].
    rewrite (Hidx j r) by done.
    assert ((image <$> results) !! j = Some (image r)) as Hj'
      by by rewrite list_lookup_fmap, Hj.
    rewrite Himg, list_lookup_fmap in Hj'.
    destruct (rendered !! j) as [p|] eqn:Hp; [|done].
    injection Hj' as <-.
    assert (Z.of_nat j < n) as Hjn.
    { apply lookup_lt_Some in Hj. lia. }
    eapply (render_pages_lookup doc (range n) rendered j); [done| |done].
    unfold range. rewrite lookup_seqZ_lt by done. f_equal. lia.
  - intros j k rj rk Hj Hk Hjk. rewrite (Hidx j rj), (Hidx k rk) by done. lia.
  - rewrite Hnum. apply NoDup_seqZ.
  - unfold n, pages_to_analyze, page_count in *.
    destruct (max_pages =? 0); lia.
  - intros Hpos. unfold n, pages_to_analyze, page_count in *.
    destruct (Z.eqb_spec max_pages 0); lia.
Qed.

(** *** Failures of the model and of the renderer *)

Lemma analysis_text_Ok (texts : list string) :
  analysis_text <$> (Ok <$> texts) = texts.
Proof. induction texts as [|t texts IH]; [done|]. simpl. f_equal. exact IH. Qed.

(** C1, amended.  When the document opens, every page asked for renders
    and the model fails on one processed page only (the page after the
    first [length before] pages), a run with page limit [L ≥ 0] still
    completes with one result per processed page ([P] results when
    [L = 0], [min(L, P)] when [L > 0]): the text of the failed page is
    "Error analyzing this page: " followed by the cause, the texts of
    the other pages are the answers of the model, and the run ends with
    "Processing complete!" rather than with an error. *)
Theorem one_page_inference_failure_tolerated (w : World) pdf_file max_pages prompt
    doc rendered before cause after :
  0 ≤ max_pages →
  fitz_decode (getvalue pdf_file) = Ok doc →
  render_pages doc (range (pages_to_analyze max_pages (page_count doc))) = Ok rendered →
  replay (calls w) (page_request prompt <$> rendered)
  = (Ok <$> before) ++ Raise cause :: (Ok <$> after) →
  ∃ results w',
    process_pdf pdf_file max_pages prompt w = (Ok results, w')
    ∧ (max_pages = 0 → Z.of_nat (length results) = page_count doc)
    ∧ (0 < max_pages →
       Z.of_nat (length results) = Z.min max_pages (page_count doc))
    ∧ page_num <$> results = seqZ 1 (Z.of_nat (length results))
    ∧ analysis <$> results
      = before ++ ("Error analyzing this page: " +:+ cause) :: after
    ∧ (∃ r, results !! length before = Some r
            ∧ page_num r = Z.of_nat (length before) + 1
            ∧ analysis r = "Error analyzing this page: " +:+ cause)
    ∧ last (ui w') = Some (StText "Processing complete!").
Proof.
  intros HL Hdoc Hren Hreplay.
  pose proof (render_pages_length _ _ _ Hren) as Hlen.
  set (n := pages_to_analyze max_pages (page_count doc)) in *.
  set (results := entries prompt (range n) rendered (calls w)).
  exists results. eexists.
  split; [by apply (process_pdf_completes _ _ _ _ doc rendered)|].
  assert (0 ≤ n) as Hn.
  { unfold n, pages_to_analyze, page_count. destruct (max_pages =? 0); lia. }
  assert (Z.of_nat (length results) = n) as Hres.
  { unfold results. rewrite entries_length by done. by apply length_range. }
  assert (page_num <$> results = seqZ 1 n) as Hnum.
  { unfold results. by rewrite entries_page_num, range_succ. }
  assert (analysis <$> results
          = before ++ ("Error analyzing this page: " +:+ cause) :: after) as Htexts.
  { unfold results. rewrite entries_analysis by done.
    by rewrite Hreplay, fmap_app, fmap_cons, !analysis_text_Ok. }
  rewrite Hres.
  split; [intros ->; done|].
  split; [intros Hpos; unfold n, pages_to_analyze;
          by destruct (Z.eqb_spec max_pages 0); [lia|]|].
  split; [done|]. split; [done|]. split.
  - assert ((analysis <$> results) !! length before
            = Some ("Error analyzing this page: " +:+ cause)) as Hk
      by (rewrite Htexts; apply list_lookup_middle; done).
    rewrite list_lookup_fmap in Hk.
    destruct (results !! length before) as [r|] eqn:Hr; [|done].
    injection Hk as Hk. exists r. split; [done|]. split; [|done].
    assert ((page_num <$> results) !! length before = Some (page_num r)) as Hp
      by by rewrite list_lookup_fmap, Hr.
    rewrite Hnum in Hp. apply lookup_seqZ in Hp. lia.
  - cbn [ui]. apply (last_app_snoc _ (_ :: _ :: _)).
Qed.

(** C3.  When the document does not open, or one of the pages asked for
    does not render or does not open as an image, the run returns the
    empty list, whatever was collected before, and the last widget it
    draws is the error "Error processing PDF: " with the cause. *)
Theorem renderer_failure_empties_result (w : World) pdf_file max_pages prompt :
  ((∃ e, fitz_decode (getvalue pdf_file) = Raise e)
   ∨ ∃ doc i e, fitz_decode (getvalue pdf_file) = Ok doc
                ∧ 0 ≤ i < pages_to_analyze max_pages (page_count doc)
                ∧ open_page doc i = Raise e) →
  ∃ cause w',
    process_pdf pdf_file max_pages prompt w = (Ok [], w')
    ∧ last (ui w') = Some (StError ("Error processing PDF: " +:+ cause)).
Proof.
  intros [[e Hdoc]|(doc & i & e & Hdoc & Hi & Hpage)].
  - destruct (process_pdf_aborts w pdf_file max_pages prompt e) as (w' & Hrun & _ & Hui);
      [by left|]. by exists e, w'.
  - destruct (render_pages_fails doc
                (range (pages_to_analyze max_pages (page_count doc))) i e)
      as [e' Hren]; [apply elem_of_seqZ; lia|done|].
    destruct (process_pdf_aborts w pdf_file max_pages prompt e') as (w' & Hrun & _ & Hui);
      [right; eauto|]. by exists e', w'.
Qed.

(** C4, as the script behaves.  When the document does not open, or one
    of the pages asked for does not render, the temporary copy of the
    upload is still on disk when the run returns: [os.unlink] is only
    reached at the end of the [try] body. *)
Theorem temporary_file_left_on_failure (w : World) pdf_file max_pages prompt :
  ((∃ e, fitz_decode (getvalue pdf_file) = Raise e)
   ∨ ∃ doc i e, fitz_decode (getvalue pdf_file) = Ok doc
                ∧ 0 ≤ i < pages_to_analyze max_pages (page_count doc)
                ∧ open_page doc i = Raise e) →
  files (process_pdf pdf_file max_pages prompt w).2 !! mkstemp (files w) ".pdf"
  = Some (getvalue pdf_file).
Proof.
  intros [[e Hdoc]|(doc & i & e & Hdoc & Hi & Hpage)].
  - destruct (process_pdf_aborts w pdf_file max_pages prompt e)
      as (w' & Hrun & Hfiles & _); [by left|].
    rewrite Hrun. simpl. rewrite Hfiles. apply lookup_insert_eq.
  - destruct (render_pages_fails doc
                (range (pages_to_analyze max_pages (page_count doc))) i e)
      as [e' Hren]; [apply elem_of_seqZ; lia|done|].
    destruct (process_pdf_aborts w pdf_file max_pages prompt e')
      as (w' & Hrun & Hfiles & _); [right; eauto|].
    rewrite Hrun. simpl. rewrite Hfiles. apply lookup_insert_eq.
Qed.

(** The other exit: a run that completes has removed the temporary file. *)
Lemma temporary_file_removed_on_success (w : World) pdf_file max_pages prompt
    doc rendered :
  fitz_decode (getvalue pdf_file) = Ok doc →
  render_pages doc (range (pages_to_analyze max_pages (page_count doc))) = Ok rendered →
  files (process_pdf pdf_file max_pages prompt w).2 !! mkstemp (files w) ".pdf" = None.
Proof.
  intros Hdoc Hren. rewrite (process_pdf_completes _ _ _ _ doc rendered) by done.
  apply lookup_delete_eq.
Qed.

(** *** Repeated runs *)

(** C9.  When the answer of the model depends on the request only, a
    second run on the same upload with the same page limit, model and
    prompt, started where the first run left the world, returns the
    same list of results (page indices, texts and images, in order). *)
Theorem process_pdf_repeatable (w : World) pdf_file max_pages prompt :
  (∀ h1 h2 req, gemini h1 req = gemini h2 req) →
  let first := process_pdf pdf_file max_pages prompt w in
  let second := process_pdf pdf_file max_pages prompt first.2 in
  first.1 = second.1.
Proof. intros Hdet first second. by apply process_pdf_world_independent. Qed.

(** *** Documents without pages *)

(** C10.  When the document opens and has no page, the run returns the
    empty list whatever the page limit: it sends no request, draws the
    initial progress bar, the placeholder and "Processing complete!"
    only (no per-page progress, hence no division, and no error), and
    removes the temporary file. *)
Theorem zero_page_document (w : World) pdf_file max_pages prompt doc :
  fitz_decode (getvalue pdf_file) = Ok doc →
  pages doc = [] →
  process_pdf pdf_file max_pages prompt w
  = (Ok [],
     mkWorld (delete (mkstemp (files w) ".pdf")
                (<[mkstemp (files w) ".pdf" := getvalue pdf_file]> (files w)))
             (calls w)
             (ui w ++ [StProgress 0; StEmpty; StText "Processing complete!"])).
Proof.
  intros Hdoc Hpages.
  assert (range (pages_to_analyze max_pages (page_count doc)) = []) as Hrange.
  { unfold range. apply seqZ_nil.
    unfold pages_to_analyze, page_count. rewrite Hpages. simpl.
    destruct (max_pages =? 0); lia. }
  rewrite (process_pdf_completes _ _ _ _ doc []); [|done|by rewrite Hrange].
  rewrite Hrange. simpl. by rewrite app_nil_r.
Qed.

(** *** The tabs, the summary and the full report *)

Lemma show_tabs (shown rest : list AnalysisResult) (w : World) :
  for_each (seq (length shown) (length rest)) (App.show_tab (shown ++ rest)) () w
  = (Ok (), mkWorld (files w) (calls w) (ui w ++ (rest ≫= tab_events))).
Proof.
  revert shown w. induction rest as [|r rest IH]; intros shown w; simpl.
  - rewrite app_nil_r. by destruct w.
  - unfold mbind at 1, M_bind, App.show_tab. unfold_monad. unfold getitem. simpl.
    rewrite list_lookup_middle by done. simpl.
    replace (shown ++ r :: rest) with ((shown ++ [r]) ++ rest)
      by by rewrite <- app_assoc.
    replace (S (length shown)) with (length (shown ++ [r]))
      by (rewrite length_app; simpl; lia).
    rewrite IH. simpl. by rewrite <- !app_assoc.
Qed.

(** The summary stage: one request whose only content is the template
    with the aggregate text in place of its field; the answer and the
    report button are drawn, or the error is. *)
Lemma summarize_run uploaded_file all (w : World) :
  let req := mkRequest model_choice [Text (SUMMARY_HEAD +:+ all +:+ SUMMARY_TAIL)] in
  summarize uploaded_file all w
  = (Ok (),
     mkWorld (files w) (calls w ++ [req])
       (ui w ++ match gemini (calls w) req with
                | Ok summary =>
                    [StMarkdown summary;
                     StDownloadButton "Download Full Report"
                       (full_report (name uploaded_file) summary all)
                       ("jfk_analysis_" +:+ name uploaded_file +:+ ".txt")
                       "text/plain"]
                | Raise e => [StError ("Error generating summary: " +:+ e)]
                end)).
Proof.
  intros req. unfold App.summarize, try_except.
  unfold mbind at 1, M_bind, lift. rewrite str_format_summary_template.
  unfold mbind at 1, M_bind, App.generate_content. fold req.
  destruct (gemini (calls w) req) as [summary|e]; unfold_monad; simpl.
  - by rewrite <- app_assoc.
  - done.
Qed.

Lemma analyze_document_run uploaded_file max_pages prompt (w w1 : World) results :
  process_pdf uploaded_file max_pages prompt w = (Ok results, w1) →
  results ≠ [] →
  analyze_document uploaded_file max_pages prompt w
  = summarize uploaded_file (all_analysis results)
      (mkWorld (files w1) (calls w1)
         (ui w1 ++ [StTabs ((λ r, "Page " +:+ str_int (page_num r)) <$> results)]
                ++ (results ≫= tab_events)
                ++ [StMarkdown "---"; StMarkdown "## Document Summary"])).
Proof.
  intros Hrun Hne. unfold App.analyze_document.
  unfold mbind at 1, M_bind. rewrite Hrun.
  destruct results as [|r results]; [done|].
  rewrite length_fmap.
  unfold mbind at 1, M_bind, emit.
  unfold mbind at 1, M_bind.
  rewrite (show_tabs [] (r :: results)).
  unfold mbind at 1, M_bind, emit.
  unfold mbind at 1, M_bind, emit.
  cbn [files calls ui]. f_equal. f_equal.
  by rewrite <- !app_assoc.
Qed.

(** A run that returns results has completed, and has drawn status
    texts and progress only. *)
Lemma process_pdf_draws_no_button uploaded_file max_pages prompt (w w1 : World)
    results label data file_name mime :
  process_pdf uploaded_file max_pages prompt w = (Ok results, w1) →
  results ≠ [] →
  StDownloadButton label data file_name mime ∈ ui w1 →
  StDownloadButton label data file_name mime ∈ ui w.
Proof.
  intros Hrun Hne Hin.
  destruct (fitz_decode (getvalue uploaded_file)) as [doc|e] eqn:Hdoc.
  - destruct (render_pages doc (range (pages_to_analyze max_pages (page_count doc))))
      as [rendered|e] eqn:Hren.
    + rewrite (process_pdf_completes _ _ _ _ doc rendered) in Hrun by done.
      injection Hrun as _ <-. simpl in Hin.
      apply elem_of_app in Hin as [Hin|Hin]; [done|].
      apply elem_of_cons in Hin as [?|Hin]; [done|].
      apply elem_of_cons in Hin as [?|Hin]; [done|].
      apply elem_of_app in Hin as [Hin|Hin].
      * apply list_elem_of_bind in Hin as (i & Hin & _).
        unfold page_events in Hin.
        apply elem_of_cons in Hin as [?|Hin]; [done|].
        apply list_elem_of_singleton in Hin. done.
      * apply list_elem_of_singleton in Hin. done.
    + destruct (process_pdf_aborts w uploaded_file max_pages prompt e)
        as (w' & Hrun' & _); [right; eauto|]. congruence.
  - destruct (process_pdf_aborts w uploaded_file max_pages prompt e)
      as (w' & Hrun' & _); [by left|]. congruence.
Qed.

(** C6, amended.  When the pipeline has returned a non-empty list of
    results, the script sends one more request, whose only content is
    the summary template with its field replaced by the aggregate
    text: every result formatted as "**Page {index}**:", a line break
    and the text, the fragments joined by blank lines. *)
Theorem summary_prompt_built_from_results uploaded_file max_pages prompt
    (w w1 : World) results :
  process_pdf uploaded_file max_pages prompt w = (Ok results, w1) →
  results ≠ [] →
  ∃ w',
    analyze_document uploaded_file max_pages prompt w = (Ok (), w')
    ∧ calls w'
      = calls w1
        ++ [mkRequest model_choice
              [Text (SUMMARY_HEAD
                     +:+ str_join (LF +:+ LF)
                           ((λ r, "**Page " +:+ str_int (page_num r) +:+ "**:"
                                  +:+ LF +:+ analysis r) <$> results)
                     +:+ SUMMARY_TAIL)]].
Proof.
  intros Hrun Hne.
  rewrite (analyze_document_run _ _ _ _ w1 results), summarize_run by done.
  eexists. split; [done|]. done.
Qed.

(** C7, amended.  When the pipeline has returned a non-empty list of
    results and the summary request is answered with [summary], the
    last widget drawn is the "Download Full Report" button, whose data
    is "# JFK Document Analysis: {filename}", a blank line,
    "## Summary", a blank line, [summary], a blank line,
    "## Page-by-Page Analysis", a blank line and the aggregate text of
    the results in page order. *)
Theorem full_report_format uploaded_file max_pages prompt (w w1 : World) results
    summary_prompt summary :
  process_pdf uploaded_file max_pages prompt w = (Ok results, w1) →
  results ≠ [] →
  str_format SUMMARY_PROMPT_TEMPLATE [("all_analysis", all_analysis results)]
  = Ok summary_prompt →
  gemini (calls w1) (mkRequest model_choice [Text summary_prompt]) = Ok summary →
  ∃ w',
    analyze_document uploaded_file max_pages prompt w = (Ok (), w')
    ∧ last (ui w')
      = Some (StDownloadButton "Download Full Report"
                ("# JFK Document Analysis: " +:+ name uploaded_file +:+ LF +:+ LF
                 +:+ "## Summary" +:+ LF +:+ LF +:+ summary +:+ LF +:+ LF
                 +:+ "## Page-by-Page Analysis" +:+ LF +:+ LF
                 +:+ str_join (LF +:+ LF) (page_block <$> results))
                ("jfk_analysis_" +:+ name uploaded_file +:+ ".txt") "text/plain").
Proof.
  intros Hrun Hne Hfmt Hsum.
  rewrite str_format_summary_template in Hfmt. injection Hfmt as <-.
  rewrite (analyze_document_run _ _ _ _ w1 results), summarize_run by done.
  cbn [files calls ui]. rewrite Hsum.
  eexists. split; [done|]. cbn [ui].
  apply (last_app_snoc _ [_]).
Qed.

(** C8.  When the pipeline has returned a non-empty list of results and
    the summary request fails, the script ends normally; after the tabs
    it draws the two headings and the error "Error generating
    summary: " with the cause, and nothing else.  Every result has its
    own "Download Analysis" button, with the text of the result as
    returned by the pipeline, and no "Download Full Report" button is
    drawn. *)
Theorem summary_failure_keeps_pages uploaded_file max_pages prompt (w w1 : World)
    results summary_prompt cause :
  process_pdf uploaded_file max_pages prompt w = (Ok results, w1) →
  results ≠ [] →
  str_format SUMMARY_PROMPT_TEMPLATE [("all_analysis", all_analysis results)]
  = Ok summary_prompt →
  gemini (calls w1) (mkRequest model_choice [Text summary_prompt]) = Raise cause →
  ∃ w',
    analyze_document uploaded_file max_pages prompt w = (Ok (), w')
    ∧ ui w'
      = ui w1
        ++ [StTabs ((λ r, "Page " +:+ str_int (page_num r)) <$> results)]
        ++ (results ≫= tab_events)
        ++ [StMarkdown "---"; StMarkdown "## Document Summary";
            StError ("Error generating summary: " +:+ cause)]
    ∧ (∀ r, r ∈ results →
         StDownloadButton "Download Analysis"
           ("# Analysis of Page " +:+ str_int (page_num r) +:+ LF +:+ LF
            +:+ analysis r)
           ("analysis_page_" +:+ str_int (page_num r) +:+ ".txt") "text/plain"
         ∈ ui w')
    ∧ (∀ data file_name mime,
         StDownloadButton "Download Full Report" data file_name mime ∈ ui w' →
         StDownloadButton "Download Full Report" data file_name mime ∈ ui w).
Proof.
  intros Hrun Hne Hfmt Hsum.
  rewrite str_format_summary_template in Hfmt. injection Hfmt as <-.
  rewrite (analyze_document_run _ _ _ _ w1 results), summarize_run by done.
  cbn [files calls ui]. rewrite Hsum.
  eexists. split; [done|]. cbn [ui].
  split; [by rewrite <- !app_assoc|]. split.
  - intros r Hr. rewrite <- !app_assoc.
    apply elem_of_app. right. apply elem_of_cons. right.
    apply elem_of_app. left. apply list_elem_of_bind. exists r. split; [|done].
    unfold tab_events. do 4 (apply elem_of_cons; right). apply list_elem_of_here.
  - intros data file_name mime Hin.
    rewrite <- !app_assoc in Hin.
    apply elem_of_app in Hin as [Hin|Hin].
    { by eapply process_pdf_draws_no_button. }
    apply elem_of_cons in Hin as [?|Hin]; [done|].
    apply elem_of_app in Hin as [Hin|Hin].
    + apply list_elem_of_bind in Hin as (r & Hin & _). unfold tab_events in Hin.
      repeat (apply elem_of_cons in Hin as [?|Hin]; [done|]).
      by apply elem_of_nil in Hin.
    + repeat (apply elem_of_cons in Hin as [?|Hin]; [done|]).
      by apply elem_of_nil in Hin.
Qed.

End PipelineFacts.

(** ** Runs of the test double *)

Example three_pages_no_limit :
  (Stub.process_pdf Stub.flash Stub.three_pages 0 "P" Stub.world0).1
  = Ok [mkAnalysisResult 1 "OK-1" [Byte.x01];
        mkAnalysisResult 2 "Error analyzing this page: 429 quota exceeded" [Byte.x0b];
        mkAnalysisResult 3 "OK-3" [Byte.x03]].
Proof. reflexivity. Qed.

Lemma page_limit_decides_page_count_witness :
  0 ≤ 2
  ∧ Stub.fitz_decode (getvalue Stub.three_pages) = Ok (Stub.document_of Stub.three_pages)
  ∧ ∃ results w',
      Stub.process_pdf Stub.flash Stub.three_pages 2 "P" Stub.world0 = (Ok results, w')
      ∧ Z.of_nat (length results) = Z.min 2 3.
Proof.
  split; [lia|]. split; [reflexivity|].
  destruct (page_limit_decides_page_count Stub.mkstemp Stub.fitz_decode Stub.Image_open
              Stub.gemini Stub.flash Stub.world0 Stub.three_pages 2 "P"
              (Stub.document_of Stub.three_pages)
              [([Byte.x01], [Byte.x01]); ([Byte.x0b], [Byte.x0b])])
    as (results & w' & Hrun & _ & Hlen & _); [lia|reflexivity|reflexivity|].
  exists results, w'. split; [exact Hrun|]. apply Hlen. lia.
Defined.

(** With the page limit 2 on a document of three pages whose second page
    does not render, the run returns no result at all, not
    [min(2, 3)], after one request has been sent. *)
Lemma page_limit_unrendered_page_counterexample :
  ∃ doc results w',
    Stub.fitz_decode (getvalue Stub.torn_page) = Ok doc
    ∧ page_count doc = 3
    ∧ Stub.process_pdf Stub.flash Stub.torn_page 2 "P" Stub.world0 = (Ok results, w')
    ∧ results = []
    ∧ calls w' = [mkRequest Stub.flash [Text "P"; Picture [Byte.x01]]]
    ∧ Z.of_nat (length results) ≠ Z.min 2 (page_count doc).
Proof.
  eexists _, _, _. split; [reflexivity|]. split; [reflexivity|].
  split; [vm_compute; reflexivity|]. split; [reflexivity|]. split; [reflexivity|].
  vm_compute. discriminate.
Qed.

Lemma analysis_set_ordered_witness :
  Stub.fitz_decode (getvalue Stub.three_pages) = Ok (Stub.document_of Stub.three_pages)
  ∧ ∃ results w',
      Stub.process_pdf Stub.flash Stub.three_pages 0 "P" Stub.world0 = (Ok results, w')
      ∧ NoDup (page_num <$> results)
      ∧ Z.of_nat (length results) ≤ 3.
Proof.
  split; [reflexivity|].
  destruct (analysis_set_ordered Stub.mkstemp Stub.fitz_decode Stub.Image_open
              Stub.gemini Stub.flash Stub.world0 Stub.three_pages 0 "P"
              (Stub.document_of Stub.three_pages)
              [([Byte.x01], [Byte.x01]); ([Byte.x0b], [Byte.x0b]);
               ([Byte.x03], [Byte.x03])])
    as (results & w' & Hrun & _ & _ & Hnodup & Hlen & _); [reflexivity|reflexivity|].
  exists results, w'. split; [exact Hrun|]. split; [exact Hnodup|exact Hlen].
Defined.

Lemma one_page_inference_failure_tolerated_witness :
  0 ≤ 0
  ∧ App.replay Stub.gemini []
      (App.page_request Stub.flash "P"
       <$> [([Byte.x01], [Byte.x01]); ([Byte.x0b], [Byte.x0b]); ([Byte.x03], [Byte.x03])])
    = (Ok <$> ["OK-1"]) ++ Raise "429 quota exceeded" :: (Ok <$> ["OK-3"])
  ∧ ∃ results w',
      Stub.process_pdf Stub.flash Stub.three_pages 0 "P" Stub.world0 = (Ok results, w')
      ∧ analysis <$> results
        = ["OK-1"; "Error analyzing this page: 429 quota exceeded"; "OK-3"].
Proof.
  split; [lia|]. split; [reflexivity|].
  destruct (one_page_inference_failure_tolerated Stub.mkstemp Stub.fitz_decode
              Stub.Image_open Stub.gemini Stub.flash Stub.world0 Stub.three_pages 0 "P"
              (Stub.document_of Stub.three_pages)
              [([Byte.x01], [Byte.x01]); ([Byte.x0b], [Byte.x0b]);
               ([Byte.x03], [Byte.x03])]
              ["OK-1"] "429 quota exceeded" ["OK-3"])
    as (results & w' & Hrun & _ & _ & _ & Htexts & _ & _);
    [lia|reflexivity|reflexivity|reflexivity|].
  exists results, w'. split; [exact Hrun|exact Htexts].
Defined.

(** With the page limit 0 ("all pages") the model fails on page 2 of a
    document of two pages: the run returns two results, not [min(0, 2)]. *)
Lemma one_page_failure_limit_zero_counterexample :
  ∃ doc results w',
    Stub.fitz_decode (getvalue Stub.two_pages) = Ok doc
    ∧ page_count doc = 2
    ∧ Stub.process_pdf Stub.flash Stub.two_pages 0 "P" Stub.world0 = (Ok results, w')
    ∧ analysis <$> results
      = ["OK-1"; "Error analyzing this page: 429 quota exceeded"]
    ∧ Z.of_nat (length results) ≠ Z.min 0 (page_count doc).
Proof.
  eexists _, _, _. split; [reflexivity|]. split; [reflexivity|].
  split; [vm_compute; reflexivity|]. split; [reflexivity|]. vm_compute. discriminate.
Qed.

Lemma renderer_failure_empties_result_witness :
  ∃ cause w',
    Stub.process_pdf Stub.flash Stub.torn_page 0 "P" Stub.world0 = (Ok [], w')
    ∧ last (ui w') = Some (StError ("Error processing PDF: " +:+ cause)).
Proof.
  apply (renderer_failure_empties_result Stub.mkstemp Stub.fitz_decode Stub.Image_open
           Stub.gemini Stub.flash Stub.world0 Stub.torn_page 0 "P").
  right. exists (Stub.document_of Stub.torn_page), 1, "cannot render page".
  split; [reflexivity|]. split; [vm_compute; split; [discriminate|reflexivity]|reflexivity].
Defined.

Lemma temporary_file_left_on_failure_witness :
  files (Stub.process_pdf Stub.flash Stub.broken 5 "P" Stub.world0).2 !! "/tmp/tmpjfk.pdf"
  = Some [Byte.xff; Byte.x01].
Proof.
  apply (temporary_file_left_on_failure Stub.mkstemp Stub.fitz_decode Stub.Image_open
           Stub.gemini Stub.flash Stub.world0 Stub.broken 5 "P").
  left. exists "cannot open broken document". reflexivity.
Defined.

Lemma process_pdf_repeatable_witness :
  (Stub.process_pdf Stub.flash Stub.three_pages 2 "P" Stub.world0).1
  = (Stub.process_pdf Stub.flash Stub.three_pages 2 "P"
       (Stub.process_pdf Stub.flash Stub.three_pages 2 "P" Stub.world0).2).1.
Proof.
  apply (process_pdf_repeatable Stub.mkstemp Stub.fitz_decode Stub.Image_open
           Stub.gemini Stub.flash Stub.world0 Stub.three_pages 2 "P").
  intros h1 h2 req. reflexivity.
Defined.

Lemma zero_page_document_witness :
  Stub.process_pdf Stub.flash Stub.no_page 5 "P" Stub.world0
  = (Ok [],
     mkWorld (delete "/tmp/tmpjfk.pdf" (<["/tmp/tmpjfk.pdf" := []]> ∅)) []
       [StProgress 0; StEmpty; StText "Processing complete!"]).
Proof.
  apply (zero_page_document Stub.mkstemp Stub.fitz_decode Stub.Image_open
           Stub.gemini Stub.flash Stub.world0 Stub.no_page 5 "P"
           (Stub.document_of Stub.no_page)); reflexivity.
Defined.

Lemma summary_prompt_built_from_results_witness :
  ∃ w',
    Stub.analyze_document Stub.flash Stub.one_page 5 "P" Stub.world0 = (Ok (), w')
    ∧ calls w'
      = [mkRequest Stub.flash [Text "P"; Picture [Byte.x01]];
         mkRequest Stub.flash
           [Text (SUMMARY_HEAD +:+ ("**Page 1**:" +:+ LF +:+ "OK-1") +:+ SUMMARY_TAIL)]].
Proof.
  apply (summary_prompt_built_from_results Stub.mkstemp Stub.fitz_decode Stub.Image_open
           Stub.gemini Stub.flash Stub.one_page 5 "P" Stub.world0
           (Stub.process_pdf Stub.flash Stub.one_page 5 "P" Stub.world0).2
           [mkAnalysisResult 1 "OK-1" [Byte.x01]]).
  - reflexivity.
  - discriminate.
Defined.

(** The aggregate text sent for one page whose text is "OK-1" starts with
    "**Page 1**:" and a line break; it is not "Page 1: OK-1". *)
Lemma summary_prompt_format_counterexample :
  ∃ results w1 w' prompt_sent,
    Stub.process_pdf Stub.flash Stub.one_page 5 "P" Stub.world0 = (Ok results, w1)
    ∧ results = [mkAnalysisResult 1 "OK-1" [Byte.x01]]
    ∧ Stub.analyze_document Stub.flash Stub.one_page 5 "P" Stub.world0 = (Ok (), w')
    ∧ last (calls w') = Some (mkRequest Stub.flash [Text prompt_sent])
    ∧ all_analysis results = "**Page 1**:" +:+ LF +:+ "OK-1"
    ∧ spec_all_analysis results = "Page 1: OK-1"
    ∧ prompt_sent ≠ SUMMARY_HEAD +:+ spec_all_analysis results +:+ SUMMARY_TAIL.
Proof.
  eexists _, _, _, _.
  split; [vm_compute; reflexivity|]. split; [reflexivity|].
  split; [vm_compute; reflexivity|]. split; [reflexivity|].
  split; [reflexivity|]. split; [reflexivity|].
  apply String.eqb_neq. vm_compute. reflexivity.
Qed.

Lemma full_report_format_witness :
  ∃ w',
    Stub.analyze_document Stub.flash Stub.one_page 5 "P" Stub.world0 = (Ok (), w')
    ∧ last (ui w')
      = Some (StDownloadButton "Download Full Report"
                ("# JFK Document Analysis: a.pdf" +:+ LF +:+ LF +:+ "## Summary"
                 +:+ LF +:+ LF +:+ "SUM" +:+ LF +:+ LF +:+ "## Page-by-Page Analysis"
                 +:+ LF +:+ LF +:+ "**Page 1**:" +:+ LF +:+ "OK-1")
                "jfk_analysis_a.pdf.txt" "text/plain").
Proof.
  apply (full_report_format Stub.mkstemp Stub.fitz_decode Stub.Image_open
           Stub.gemini Stub.flash Stub.one_page 5 "P" Stub.world0
           (Stub.process_pdf Stub.flash Stub.one_page 5 "P" Stub.world0).2
           [mkAnalysisResult 1 "OK-1" [Byte.x01]]
           (SUMMARY_HEAD +:+ ("**Page 1**:" +:+ LF +:+ "OK-1") +:+ SUMMARY_TAIL) "SUM").
  - reflexivity.
  - discriminate.
  - reflexivity.
  - reflexivity.
Defined.

(** The report of a run on "a.pdf" whose summary is "SUM" starts with
    "# JFK Document Analysis: ", so it is not a report in the format
    "# Document Analysis: ...", whatever the joined per-page text. *)
Lemma full_report_header_counterexample :
  ∃ w' data,
    Stub.analyze_document Stub.flash Stub.one_page 5 "P" Stub.world0 = (Ok (), w')
    ∧ last (ui w')
      = Some (StDownloadButton "Download Full Report" data
                "jfk_analysis_a.pdf.txt" "text/plain")
    ∧ ¬ ∃ joined, data = spec_full_report (name Stub.one_page) "SUM" joined.
Proof.
  eexists _, _.
  split; [vm_compute; reflexivity|]. split; [reflexivity|].
  intros [joined H]. vm_compute in H. discriminate H.
Qed.

Lemma summary_failure_keeps_pages_witness :
  ∃ w',
    Stub.analyze_document "gemini-pro-vision" Stub.one_page 5 "P" Stub.world0
    = (Ok (), w')
    ∧ last (ui w') = Some (StError "Error generating summary: 404 model not found")
    ∧ StDownloadButton "Download Analysis" ("# Analysis of Page 1" +:+ LF +:+ LF +:+ "OK-1")
        "analysis_page_1.txt" "text/plain" ∈ ui w'.
Proof.
  destruct (summary_failure_keeps_pages Stub.mkstemp Stub.fitz_decode Stub.Image_open
              Stub.gemini "gemini-pro-vision" Stub.one_page 5 "P" Stub.world0
              (Stub.process_pdf "gemini-pro-vision" Stub.one_page 5 "P" Stub.world0).2
              [mkAnalysisResult 1 "OK-1" [Byte.x01]]
              (SUMMARY_HEAD +:+ ("**Page 1**:" +:+ LF +:+ "OK-1") +:+ SUMMARY_TAIL)
              "404 model not found")
    as (w' & Hrun & Hui & Hpages & _);
    [reflexivity|discriminate|reflexivity|reflexivity|].
  exists w'. split; [exact Hrun|]. split.
  - rewrite Hui. reflexivity.
  - apply (Hpages (mkAnalysisResult 1 "OK-1" [Byte.x01])). apply list_elem_of_here.
Defined.

(** ** Further facts about the pipeline *)

Lemma for_each_app {A S} (xs ys : list A) (body : A → S → M S) (acc : S) (w : World) :
  for_each (xs ++ ys) body acc w
  = match for_each xs body acc w with
    | (Ok acc', w') => for_each ys body acc' w'
    | (Raise e, w') => (Raise e, w')
    end.
Proof.
  revert acc w. induction xs as [|x xs IH]; intros acc w; simpl.
  - done.
  - unfold mbind, M_bind. destruct (body x acc w) as [[acc'|e] w']; [apply IH|done].
Qed.

Lemma range_split (i n : Z) :
  0 ≤ i < n → range n = range i ++ i :: seqZ (i + 1) (n - i - 1).
Proof.
  intros Hi. unfold range.
  replace n with (i + (n - i)) at 1 by lia.
  rewrite seqZ_app by lia. f_equal.
  rewrite seqZ_cons by lia.
  replace (Z.succ (0 + i)) with (i + 1) by lia.
  replace (Z.pred (n - i)) with (n - i - 1) by lia.
  done.
Qed.

Lemma range_snoc (n : Z) : 0 < n → range n = range (n - 1) ++ [n - 1].
Proof.
  intros Hn. rewrite (range_split (n - 1) n) by lia. f_equal. f_equal.
  apply seqZ_nil. lia.
Qed.

Lemma progress_values_app (xs ys : list UiEvent) :
  progress_values (xs ++ ys) = progress_values xs ++ progress_values ys.
Proof. unfold progress_values. apply bind_app. Qed.

Lemma progress_values_page_events (n : Z) (idx : list Z) :
  progress_values (idx ≫= page_events n)
  = (λ i, Qmake (i + 1) (Z.to_pos n)) <$> idx.
Proof.
  induction idx as [|i idx IH]; [done|].
  change ((i :: idx) ≫= page_events n) with (page_events n i ++ (idx ≫= page_events n)).
  rewrite progress_values_app, IH. done.
Qed.

Lemma take_range (k n : Z) : 0 ≤ k → take (Z.to_nat k) (range n) = range (Z.min k n).
Proof.
  intros Hk. destruct (Z.le_gt_cases n k) as [Hle|Hgt].
  - rewrite Z.min_r by done. apply take_ge. unfold range. rewrite length_seqZ. lia.
  - rewrite Z.min_l by lia. unfold range.
    replace n with (k + (n - k)) by lia. rewrite seqZ_app by lia.
    apply take_app_length'. rewrite length_seqZ. lia.
Qed.

Lemma str_int_inj (a b : Z) : str_int a = str_int b → a = b.
Proof.
  assert (∀ z, NilZero.int_of_string (str_int z) = Some (Z.to_int z)) as Hparse.
  { intros z. unfold str_int. apply NilZero.isi; destruct z; simpl; try discriminate.
    - intros [= H]. by apply DecimalPos.Unsigned.to_uint_nonnil in H.
    - intros [= H]. by apply DecimalPos.Unsigned.to_uint_nonnil in H. }
  intros H. apply DecimalZ.to_int_inj.
  pose proof (Hparse a) as Ha. rewrite H, Hparse in Ha. by injection Ha.
Qed.

Lemma string_length_app (s t : string) :
  String.length (s +:+ t) = (String.length s + String.length t)%nat.
Proof. induction s as [|c s IH]; simpl; [done|]. by rewrite IH. Qed.

Lemma string_app_inj_r (s1 s2 t : string) : s1 +:+ t = s2 +:+ t → s1 = s2.
Proof.
  revert s2. induction s1 as [|c s1 IH]; intros [|c' s2] H; simpl in H.
  - done.
  - apply (f_equal String.length) in H. simpl in H.
    rewrite !string_length_app in H. simpl in H. lia.
  - apply (f_equal String.length) in H. simpl in H.
    rewrite !string_length_app in H. simpl in H. lia.
  - injection H as -> H. f_equal. by apply IH.
Qed.

Lemma page_file_name_inj (a b : Z) :
  "analysis_page_" +:+ str_int a +:+ ".txt" = "analysis_page_" +:+ str_int b +:+ ".txt" →
  a = b.
Proof.
  intros H. apply str_int_inj, (string_app_inj_r _ _ ".txt").
  by apply (String.app_inj "analysis_page_").
Qed.

Lemma download_names_app (xs ys : list UiEvent) :
  download_names (xs ++ ys) = download_names xs ++ download_names ys.
Proof. unfold download_names. apply bind_app. Qed.

Lemma download_names_page_events (n : Z) (idx : list Z) :
  download_names (idx ≫= page_events n) = [].
Proof.
  induction idx as [|i idx IH]; [done|].
  change ((i :: idx) ≫= page_events n) with (page_events n i ++ (idx ≫= page_events n)).
  by rewrite download_names_app, IH.
Qed.

Lemma download_names_tab_events (results : list AnalysisResult) :
  download_names (results ≫= tab_events)
  = (λ r, "analysis_page_" +:+ str_int (page_num r) +:+ ".txt") <$> results.
Proof.
  induction results as [|r results IH]; [done|].
  change ((r :: results) ≫= tab_events) with (tab_events r ++ (results ≫= tab_events)).
  rewrite download_names_app, IH. done.
Qed.

Section MoreFacts.

Variable mkstemp : gmap string bytes → string → string.
Variable fitz_decode : bytes → Result Document.
Variable Image_open : bytes → Result Image.
Variable gemini : list Request → Request → Result string.
Variable model_choice : string.

Local Abbreviation process_page := (App.process_page Image_open gemini model_choice).
Local Abbreviation process_pdf := (App.process_pdf mkstemp fitz_decode Image_open gemini model_choice).
Local Abbreviation analyze_document := (App.analyze_document mkstemp fitz_decode Image_open gemini model_choice).
Local Abbreviation analyze_image := (App.analyze_image Image_open gemini model_choice).

Variable tmpfile_outcome : gmap string bytes → string → bytes → App.TmpOutcome.

Local Abbreviation process_pdf_io := (App.process_pdf_io mkstemp fitz_decode Image_open gemini model_choice tmpfile_outcome).
Local Abbreviation analyze_document_io := (App.analyze_document_io mkstemp fitz_decode Image_open gemini model_choice tmpfile_outcome).
Local Abbreviation open_page := (App.open_page Image_open).
Local Abbreviation render_pages := (App.render_pages Image_open).
Local Abbreviation page_request := (App.page_request model_choice).
Local Abbreviation entries := (App.entries gemini model_choice).

(** Every run is of one of two kinds. *)
Lemma process_pdf_cases pdf_file max_pages :
  (∃ doc rendered,
     fitz_decode (getvalue pdf_file) = Ok doc
     ∧ render_pages doc (range (pages_to_analyze max_pages (page_count doc))) = Ok rendered)
  ∨ (∃ e,
       fitz_decode (getvalue pdf_file) = Raise e
       ∨ ∃ doc, fitz_decode (getvalue pdf_file) = Ok doc
                ∧ render_pages doc (range (pages_to_analyze max_pages (page_count doc)))
                  = Raise e).
Proof.
  destruct (fitz_decode (getvalue pdf_file)) as [doc|e] eqn:Hdoc.
  - destruct (render_pages doc (range (pages_to_analyze max_pages (page_count doc))))
      as [rendered|e] eqn:Hren.
    + left. by exists doc, rendered.
    + right. exists e. right. by exists doc.
  - right. exists e. by left.
Qed.

(** Once the temporary file is written, [process_pdf] returns a list. *)
Lemma process_pdf_returns (w : World) pdf_file max_pages prompt :
  ∃ results w', process_pdf pdf_file max_pages prompt w = (Ok results, w').
Proof.
  destruct (process_pdf_cases pdf_file max_pages)
    as [(doc & rendered & Hdoc & Hren)|[e Hfail]].
  - eexists _, _. by apply (process_pdf_completes _ _ _ _ _ _ _ _ _ doc rendered).
  - destruct (process_pdf_aborts mkstemp fitz_decode Image_open gemini model_choice
                w pdf_file max_pages prompt e Hfail) as (w' & Hrun & _).
    by exists [], w'.
Qed.

(** Once the temporary file is written, the button code ends normally. *)
Lemma analyze_document_returns (w : World) uploaded_file max_pages prompt :
  ∃ w', analyze_document uploaded_file max_pages prompt w = (Ok (), w').
Proof.
  destruct (process_pdf_cases uploaded_file max_pages)
    as [(doc & rendered & Hdoc & Hren)|[e Hfail]].
  - pose proof (process_pdf_completes mkstemp fitz_decode Image_open gemini model_choice
                  w uploaded_file max_pages prompt doc rendered Hdoc Hren) as Hrun.
    simpl in Hrun.
    destruct (entries prompt (range (pages_to_analyze max_pages (page_count doc)))
                rendered (calls w)) as [|r results] eqn:Hres.
    + unfold App.analyze_document. unfold mbind at 1, M_bind. rewrite Hrun.
      by eexists.
    + rewrite (analyze_document_run _ _ _ _ _ _ _ _ _ _ (r :: results) Hrun) by done.
      rewrite summarize_run. by eexists.
  - destruct (process_pdf_aborts mkstemp fitz_decode Image_open gemini model_choice
                w uploaded_file max_pages prompt e Hfail) as (w' & Hrun & _).
    unfold App.analyze_document. unfold mbind at 1, M_bind. rewrite Hrun.
    by eexists.
Qed.



(** X3.  A run reads and writes its temporary file only: every other file
    on disk is the same after the run as before, whether the run
    completes or aborts. *)
Theorem process_pdf_leaves_other_files (w : World) pdf_file max_pages prompt path :
  path ≠ mkstemp (files w) ".pdf" →
  files (process_pdf pdf_file max_pages prompt w).2 !! path = files w !! path.
Proof.
  intros Hpath.
  destruct (process_pdf_cases pdf_file max_pages)
    as [(doc & rendered & Hdoc & Hren)|[e Hfail]].
  - rewrite (process_pdf_completes _ _ _ _ _ _ _ _ _ doc rendered) by done. simpl.
    rewrite lookup_delete_ne by done. by rewrite lookup_insert_ne.
  - destruct (process_pdf_aborts mkstemp fitz_decode Image_open gemini model_choice
                w pdf_file max_pages prompt e Hfail) as (w' & Hrun & Hfiles & _).
    rewrite Hrun. simpl. rewrite Hfiles. by rewrite lookup_insert_ne.
Qed.

(** X4.  When the name picked for the temporary file is not in use, a run
    that completes leaves the disk exactly as it found it. *)
Theorem completed_run_restores_disk (w : World) pdf_file max_pages prompt doc rendered :
  files w !! mkstemp (files w) ".pdf" = None →
  fitz_decode (getvalue pdf_file) = Ok doc →
  render_pages doc (range (pages_to_analyze max_pages (page_count doc))) = Ok rendered →
  files (process_pdf pdf_file max_pages prompt w).2 = files w.
Proof.
  intros Hfresh Hdoc Hren.
  rewrite (process_pdf_completes _ _ _ _ _ _ _ _ _ doc rendered) by done. simpl.
  by apply delete_insert_id.
Qed.

Lemma render_pages_first_failure doc idx e :
  render_pages doc idx = Raise e →
  ∃ pre i post rendered,
    idx = pre ++ i :: post
    ∧ render_pages doc pre = Ok rendered
    ∧ open_page doc i = Raise e.
Proof.
  induction idx as [|i idx IH]; simpl; [done|].
  destruct (open_page doc i) as [p|e'] eqn:Hp.
  - destruct (render_pages doc idx) as [ps|e'] eqn:Hps; [done|].
    intros [= ->]. destruct (IH eq_refl) as (pre & i' & post & rendered & -> & Hpre & Hi').
    exists (i :: pre), i', post, (p :: rendered). simpl. by rewrite Hp, Hpre.
  - intros [= ->]. by exists [], i, idx, [].
Qed.

(** A run that stops at the first page that does not render. *)
Lemma process_pdf_aborts_at (w : World) pdf_file max_pages prompt doc pre i post
    rendered e :
  let n := pages_to_analyze max_pages (page_count doc) in
  let tmp_path := mkstemp (files w) ".pdf" in
  fitz_decode (getvalue pdf_file) = Ok doc →
  range n = pre ++ i :: post →
  render_pages doc pre = Ok rendered →
  open_page doc i = Raise e →
  process_pdf pdf_file max_pages prompt w
  = (Ok [],
     mkWorld (<[tmp_path := getvalue pdf_file]> (files w))
       (calls w ++ (page_request prompt <$> rendered))
       (ui w ++ [StProgress 0; StEmpty] ++ (pre ≫= page_events n)
             ++ [StText ("Processing page " +:+ str_int (i + 1) +:+ " of "
                         +:+ str_int n +:+ "...");
                 StError ("Error processing PDF: " +:+ e)])).
Proof.
  intros n tmp_path Hdoc Hsplit Hren Hpage.
  pose proof (range_bounds n) as Hbounds. rewrite Hsplit in Hbounds.
  apply Forall_app in Hbounds as [Hpre _].
  unfold App.process_pdf.
  unfold mbind at 1, M_bind, App.NamedTemporaryFile_write, try_except.
  unfold mbind at 1, M_bind, App.fitz_open. simpl.
  rewrite lookup_insert_eq, Hdoc.
  unfold mbind at 1, M_bind. simpl.
  unfold mbind at 1, M_bind. simpl.
  unfold mbind at 1, M_bind.
  fold n. rewrite Hsplit, for_each_app.
  rewrite (for_each_rendered _ _ _ _ _ _ _ rendered) by done.
  simpl. unfold mbind at 1, M_bind.
  rewrite (process_page_not_rendered _ _ _ _ _ _ _ e) by done.
  unfold_monad. simpl. fold tmp_path.
  by rewrite <- !app_assoc.
Qed.

(** X5.  When the pages before page [i] (from 0) render and page [i]
    does not, the run stops there: the requests for the earlier pages
    have been sent and stay in the log, their results are dropped, the
    last status shown is that of page [i + 1], the error shown is the
    one of that page, and the temporary file stays on disk. *)
Theorem first_unrendered_page_aborts (w : World) pdf_file max_pages prompt doc i
    rendered e :
  let n := pages_to_analyze max_pages (page_count doc) in
  let tmp_path := mkstemp (files w) ".pdf" in
  fitz_decode (getvalue pdf_file) = Ok doc →
  0 ≤ i < n →
  render_pages doc (range i) = Ok rendered →
  open_page doc i = Raise e →
  process_pdf pdf_file max_pages prompt w
  = (Ok [],
     mkWorld (<[tmp_path := getvalue pdf_file]> (files w))
       (calls w ++ (page_request prompt <$> rendered))
       (ui w ++ [StProgress 0; StEmpty] ++ (range i ≫= page_events n)
             ++ [StText ("Processing page " +:+ str_int (i + 1) +:+ " of "
                         +:+ str_int n +:+ "...");
                 StError ("Error processing PDF: " +:+ e)])).
Proof.
  intros n tmp_path Hdoc Hi Hren Hpage.
  apply (process_pdf_aborts_at w pdf_file max_pages prompt doc (range i) i
           (seqZ (i + 1) (n - i - 1)) rendered e); try done.
  by apply range_split.
Qed.


Lemma entries_placeholder prompt idx rendered h :
  entries prompt idx rendered h
  = App.entries (placeholder_model gemini) model_choice prompt idx rendered h.
Proof.
  revert rendered h. induction idx as [|i idx IH]; intros [|p ps] h; simpl; try done.
  f_equal; [|apply IH]. f_equal. unfold placeholder_model.
  by destruct (gemini h (page_request prompt p)).
Qed.

(** X7.  The results do not tell a failure of the model from an answer:
    a model that answers "Error analyzing this page: " and the cause
    wherever [gemini] fails gives the same list of results, for every
    upload, limit and prompt. *)
Theorem failure_stored_as_text (w : World) pdf_file max_pages prompt :
  (process_pdf pdf_file max_pages prompt w).1
  = (App.process_pdf mkstemp fitz_decode Image_open (placeholder_model gemini)
       model_choice pdf_file max_pages prompt w).1.
Proof.
  destruct (process_pdf_cases pdf_file max_pages)
    as [(doc & rendered & Hdoc & Hren)|[e Hfail]].
  - rewrite !(process_pdf_completes _ _ _ _ _ _ _ _ _ doc rendered) by done.
    simpl. f_equal. apply entries_placeholder.
  - destruct (process_pdf_aborts mkstemp fitz_decode Image_open gemini model_choice
                w pdf_file max_pages prompt e Hfail) as (w1 & -> & _).
    destruct (process_pdf_aborts mkstemp fitz_decode Image_open
                (placeholder_model gemini) model_choice
                w pdf_file max_pages prompt e Hfail) as (w2 & -> & _).
    done.
Qed.

(** X8.  With a negative page limit and a document that opens, no page is
    processed: the run sends no request, shows "Processing complete!",
    removes the temporary file and returns the empty list, however many
    pages the document has. *)
Theorem negative_limit_processes_nothing (w : World) pdf_file max_pages prompt doc :
  fitz_decode (getvalue pdf_file) = Ok doc →
  max_pages < 0 →
  process_pdf pdf_file max_pages prompt w
  = (Ok [],
     mkWorld (delete (mkstemp (files w) ".pdf")
                (<[mkstemp (files w) ".pdf" := getvalue pdf_file]> (files w)))
             (calls w)
             (ui w ++ [StProgress 0; StEmpty; StText "Processing complete!"])).
Proof.
  intros Hdoc Hneg.
  assert (range (pages_to_analyze max_pages (page_count doc)) = []) as Hrange.
  { unfold range. apply seqZ_nil. unfold pages_to_analyze, page_count.
    destruct (Z.eqb_spec max_pages 0); lia. }
  rewrite (process_pdf_completes _ _ _ _ _ _ _ _ _ doc []); [|done|by rewrite Hrange].
  rewrite Hrange. simpl. by rewrite app_nil_r.
Qed.

(** X9.  A page limit that is at least the page count of the document
    changes nothing: the run is the run without limit (limit 0), with
    the same results, the same requests and the same widgets. *)
Theorem limit_beyond_page_count (w : World) pdf_file max_pages prompt doc :
  fitz_decode (getvalue pdf_file) = Ok doc →
  page_count doc ≤ max_pages →
  process_pdf pdf_file max_pages prompt w = process_pdf pdf_file 0 prompt w.
Proof.
  intros Hdoc Hlimit.
  assert (pages_to_analyze max_pages (page_count doc)
          = pages_to_analyze 0 (page_count doc)) as Hsame.
  { unfold pages_to_analyze. destruct (Z.eqb_spec max_pages 0); simpl; lia. }
  unfold App.process_pdf, App.NamedTemporaryFile_write, App.fitz_open, try_except,
    mbind, M_bind.
  cbn [files calls ui]. rewrite lookup_insert_eq, Hdoc. cbv zeta. by rewrite Hsame.
Qed.

Lemma render_pages_take doc idx rendered (k : nat) :
  render_pages doc idx = Ok rendered →
  render_pages doc (take k idx) = Ok (take k rendered).
Proof.
  revert rendered k. induction idx as [|i idx IH]; intros rendered k; simpl.
  - intros [= <-]. by destruct k.
  - destruct (open_page doc i) as [p|e] eqn:Hp; [|done].
    destruct (render_pages doc idx) as [ps|e]; [|done].
    intros [= <-]. destruct k as [|k]; simpl; [done|].
    by rewrite Hp, (IH ps k).
Qed.

Lemma entries_take prompt idx rendered h (k : nat) :
  entries prompt (take k idx) (take k rendered) h
  = take k (entries prompt idx rendered h).
Proof.
  revert idx rendered h.
  induction k as [|k IH]; intros [|i idx] [|p ps] h; simpl; try done.
  by rewrite IH.
Qed.

(** X10.  When every page of the document renders, the results of a run
    with a page limit [L > 0] are the first [L] results of the run
    without limit started in the same state: limiting the pages never
    changes what is said about the pages that are kept. *)
Theorem limited_run_is_prefix (w : World) pdf_file max_pages prompt doc rendered :
  0 < max_pages →
  fitz_decode (getvalue pdf_file) = Ok doc →
  render_pages doc (range (page_count doc)) = Ok rendered →
  ∃ full,
    (process_pdf pdf_file 0 prompt w).1 = Ok full
    ∧ (process_pdf pdf_file max_pages prompt w).1 = Ok (take (Z.to_nat max_pages) full).
Proof.
  intros HL Hdoc Hren.
  exists (entries prompt (range (page_count doc)) rendered (calls w)). split.
  - by rewrite (process_pdf_completes _ _ _ _ _ _ _ _ _ doc rendered).
  - assert (pages_to_analyze max_pages (page_count doc)
            = Z.min max_pages (page_count doc)) as Hn.
    { unfold pages_to_analyze. by destruct (Z.eqb_spec max_pages 0); [lia|]. }
    rewrite (process_pdf_completes _ _ _ _ _ _ _ _ _ doc
               (take (Z.to_nat max_pages) rendered)); [|done|].
    + simpl. rewrite Hn, <- take_range by lia. by rewrite entries_take.
    + rewrite Hn, <- take_range by lia. by apply render_pages_take.
Qed.

(** X11.  When the document opens, every page asked for renders and there
    is at least one page to analyze, "Analyze Document" sends one
    request per page and one for the summary, whether the model answers
    or fails: the log of requests grows by the number of pages plus one. *)
Theorem analyze_document_request_count (w : World) uploaded_file max_pages prompt
    doc rendered :
  let n := pages_to_analyze max_pages (page_count doc) in
  fitz_decode (getvalue uploaded_file) = Ok doc →
  render_pages doc (range n) = Ok rendered →
  0 < n →
  length (calls (analyze_document uploaded_file max_pages prompt w).2)
  = (length (calls w) + Z.to_nat n + 1)%nat.
Proof.
  intros n Hdoc Hren Hn.
  pose proof (process_pdf_completes mkstemp fitz_decode Image_open gemini model_choice
                w uploaded_file max_pages prompt doc rendered Hdoc Hren) as Hrun.
  cbv zeta in Hrun. fold n in Hrun.
  pose proof (render_pages_length _ _ _ _ Hren) as Hlen.
  assert (length (entries prompt (range n) rendered (calls w)) = Z.to_nat n) as Hres.
  { rewrite entries_length by done. unfold range. by rewrite length_seqZ. }
  rewrite (analyze_document_run _ _ _ _ _ _ _ _ _ _ _ Hrun).
  - rewrite summarize_run. cbn [snd calls].
    rewrite !length_app, length_fmap, Hlen. unfold range. rewrite length_seqZ.
    simpl. lia.
  - intros Hnil. rewrite Hnil in Hres. simpl in Hres. lia.
Qed.

(** X12.  When the document does not open or a page asked for does not
    render, "Analyze Document" stops at the error of the pipeline: it
    draws no tab and no summary heading and sends no summary request;
    the world is the one [process_pdf] left. *)
Theorem no_results_no_summary (w : World) uploaded_file max_pages prompt e :
  (fitz_decode (getvalue uploaded_file) = Raise e
   ∨ ∃ doc, fitz_decode (getvalue uploaded_file) = Ok doc
            ∧ render_pages doc (range (pages_to_analyze max_pages (page_count doc)))
              = Raise e) →
  analyze_document uploaded_file max_pages prompt w
  = (Ok (), (process_pdf uploaded_file max_pages prompt w).2)
  ∧ last (ui (analyze_document uploaded_file max_pages prompt w).2)
    = Some (StError ("Error processing PDF: " +:+ e)).
Proof.
  intros Hfail.
  destruct (process_pdf_aborts mkstemp fitz_decode Image_open gemini model_choice
              w uploaded_file max_pages prompt e Hfail) as (w' & Hrun & _ & Hui).
  assert (analyze_document uploaded_file max_pages prompt w = (Ok (), w')) as Hdone.
  { unfold App.analyze_document. unfold mbind at 1, M_bind. by rewrite Hrun. }
  rewrite Hdone, Hrun. by split.
Qed.

(** Whatever happens, the pipeline draws no download button. *)
Lemma process_pdf_no_download (w : World) pdf_file max_pages prompt :
  ∃ new, ui (process_pdf pdf_file max_pages prompt w).2 = ui w ++ new
         ∧ download_names new = [].
Proof.
  destruct (process_pdf_cases pdf_file max_pages)
    as [(doc & rendered & Hdoc & Hren)|[e Hfail]].
  - rewrite (process_pdf_completes _ _ _ _ _ _ _ _ _ doc rendered) by done.
    eexists. split; [done|].
    by rewrite !download_names_app, download_names_page_events.
  - destruct Hfail as [Hdoc|(doc & Hdoc & Hren)].
    + unfold App.process_pdf, App.NamedTemporaryFile_write, App.fitz_open, try_except,
        mbind, M_bind.
      cbn [files calls ui]. rewrite lookup_insert_eq, Hdoc.
      eexists. split; [done|]. done.
    + apply render_pages_first_failure in Hren
        as (pre & i & post & rendered & Hsplit & Hpre & Hpage).
      rewrite (process_pdf_aborts_at w pdf_file max_pages prompt doc pre i post rendered e)
        by done.
      eexists. split; [done|].
      by rewrite !download_names_app, download_names_page_events.
Qed.

(** X13.  Whatever the upload and the settings, the download buttons
    that "Analyze Document" draws offer pairwise different file names:
    one "analysis_page_{index}.txt" per result, and
    "jfk_analysis_{filename}.txt" for the full report. *)
Theorem download_names_distinct (w : World) uploaded_file max_pages prompt :
  ∃ new,
    ui (analyze_document uploaded_file max_pages prompt w).2 = ui w ++ new
    ∧ NoDup (download_names new).
Proof.
  destruct (process_pdf_no_download w uploaded_file max_pages prompt)
    as (pnew & Hpui & Hpnames).
  destruct (process_pdf uploaded_file max_pages prompt w) as [[[|r results]|e] w1]
    eqn:Hrun.
  - exists pnew. unfold App.analyze_document. unfold mbind at 1, M_bind.
    rewrite Hrun. simpl in *. split; [done|]. rewrite Hpnames. constructor.
  - assert (NoDup (page_num <$> r :: results)) as Hnums.
    { destruct (process_pdf_cases uploaded_file max_pages)
        as [(doc & rendered & Hdoc & Hren)|[e Hfail]].
      - rewrite (process_pdf_completes _ _ _ _ _ _ _ _ _ doc rendered) in Hrun by done.
        injection Hrun as Hres _. rewrite <- Hres.
        rewrite entries_page_num, range_succ by by eapply render_pages_length.
        apply NoDup_seqZ.
      - destruct (process_pdf_aborts mkstemp fitz_decode Image_open gemini model_choice
                    w uploaded_file max_pages prompt e Hfail) as (w' & Hrun' & _).
        congruence. }
    rewrite (analyze_document_run _ _ _ _ _ _ _ _ _ _ _ Hrun) by done.
    rewrite summarize_run. cbn [snd ui] in *. rewrite Hpui.
    eexists. split; [by rewrite <- !app_assoc|].
    rewrite !download_names_app, Hpnames, download_names_tab_events.
    change (download_names [StTabs _]) with (@nil string).
    change (download_names [StMarkdown "---"; StMarkdown "## Document Summary"])
      with (@nil string).
    rewrite !app_nil_l.
    assert (NoDup ((λ r, "analysis_page_" +:+ str_int (page_num r) +:+ ".txt")
                   <$> r :: results)) as Hpages.
    { rewrite (list_fmap_compose page_num
                 (λ k, "analysis_page_" +:+ str_int k +:+ ".txt")).
      apply NoDup_fmap_2; [|done]. intros a b. apply page_file_name_inj. }
    destruct (gemini _ _) as [summary|e].
    + change (download_names [StMarkdown summary; _])
        with ["jfk_analysis_" +:+ name uploaded_file +:+ ".txt"].
      apply NoDup_app. split; [done|]. split; [|apply NoDup_singleton].
      intros x Hx Hx'. apply list_elem_of_singleton in Hx'. subst x.
      apply list_elem_of_fmap in Hx as (r' & Hname & _).
      simpl in Hname. discriminate Hname.
    + change (download_names [StError _]) with (@nil string).
      by rewrite app_nil_r.
  - destruct (process_pdf_cases uploaded_file max_pages)
      as [(doc & rendered & Hdoc & Hren)|[e' Hfail]].
    + rewrite (process_pdf_completes _ _ _ _ _ _ _ _ _ doc rendered) in Hrun by done.
      discriminate Hrun.
    + destruct (process_pdf_aborts mkstemp fitz_decode Image_open gemini model_choice
                  w uploaded_file max_pages prompt e' Hfail) as (w' & Hrun' & _).
      congruence.
Qed.

(** Whatever happens, the requests of a run are page requests. *)
Lemma process_pdf_requests (w : World) pdf_file max_pages prompt :
  ∃ rendered,
    calls (process_pdf pdf_file max_pages prompt w).2
    = calls w ++ (page_request prompt <$> rendered).
Proof.
  destruct (process_pdf_cases pdf_file max_pages)
    as [(doc & rendered & Hdoc & Hren)|[e Hfail]].
  - rewrite (process_pdf_completes _ _ _ _ _ _ _ _ _ doc rendered) by done.
    by exists rendered.
  - destruct Hfail as [Hdoc|(doc & Hdoc & Hren)].
    + unfold App.process_pdf, App.NamedTemporaryFile_write, App.fitz_open, try_except,
        mbind, M_bind.
      cbn [files calls ui]. rewrite lookup_insert_eq, Hdoc.
      exists []. simpl. by rewrite app_nil_r.
    + apply render_pages_first_failure in Hren
        as (pre & i & post & rendered & Hsplit & Hpre & Hpage).
      rewrite (process_pdf_aborts_at w pdf_file max_pages prompt doc pre i post rendered e)
        by done.
      by exists rendered.
Qed.

(** X14.  Whatever the upload and however the run ends, every request a
    run adds to the log is addressed to the model selected in the
    sidebar and consists of the prompt followed by one picture. *)
Theorem requests_use_selected_model (w : World) pdf_file max_pages prompt req :
  req ∈ calls (process_pdf pdf_file max_pages prompt w).2 →
  req ∈ calls w
  ∨ (model req = model_choice ∧ ∃ im, contents req = [Text prompt; Picture im]).
Proof.
  destruct (process_pdf_requests w pdf_file max_pages prompt) as [rendered ->].
  intros [Hold|Hnew]%elem_of_app; [by left|right].
  apply list_elem_of_fmap in Hnew as (p & -> & _).
  split; [done|]. by exists p.2.
Qed.

(** *** The "Analyze Image" button *)

Lemma analyze_image_run (w : World) uploaded_image user_prompt :
  analyze_image uploaded_image user_prompt w
  = match Image_open (getvalue uploaded_image) with
    | Ok im =>
        let req := mkRequest model_choice [Text user_prompt; Picture im] in
        (Ok (),
         mkWorld (files w) (calls w ++ [req])
           (ui w ++ match gemini (calls w) req with
                    | Ok text =>
                        [StMarkdown "### AI Analysis"; StMarkdown text;
                         StDownloadButton "Download Analysis" text
                           "jfk_image_analysis.txt" "text/plain"]
                    | Raise e => [StError ("Error analyzing image: " +:+ e)]
                    end))
    | Raise e =>
        (Ok (),
         mkWorld (files w) (calls w)
           (ui w ++ [StError ("Error analyzing image: " +:+ e)]))
    end.
Proof.
  unfold App.analyze_image, try_except, App.generate_content, mbind, M_bind, lift, emit.
  destruct (Image_open (getvalue uploaded_image)) as [im|e]; [|done].
  cbn [files calls ui].
  destruct (gemini (calls w) _) as [text|e]; [|done].
  cbn [files calls ui]. by rewrite <- !app_assoc.
Qed.


End MoreFacts.

(** ** Further runs of the test double *)

Lemma process_pdf_leaves_other_files_witness :
  files (Stub.process_pdf Stub.flash Stub.three_pages 0 "P" Stub.busy_world).2
    !! "/home/app/.env"
  = Some [Byte.x41].
Proof.
  transitivity (files Stub.busy_world !! "/home/app/.env"); [|reflexivity].
  apply (process_pdf_leaves_other_files Stub.mkstemp Stub.fitz_decode Stub.Image_open
           Stub.gemini Stub.flash Stub.busy_world Stub.three_pages 0 "P"
           "/home/app/.env").
  discriminate.
Defined.

Lemma completed_run_restores_disk_witness :
  files (Stub.process_pdf Stub.flash Stub.three_pages 0 "P" Stub.busy_world).2
  = files Stub.busy_world.
Proof.
  apply (completed_run_restores_disk Stub.mkstemp Stub.fitz_decode Stub.Image_open
           Stub.gemini Stub.flash Stub.busy_world Stub.three_pages 0 "P"
           (Stub.document_of Stub.three_pages)
           [([Byte.x01], [Byte.x01]); ([Byte.x0b], [Byte.x0b]); ([Byte.x03], [Byte.x03])]).
  - reflexivity.
  - reflexivity.
  - reflexivity.
Defined.

Lemma first_unrendered_page_aborts_witness :
  Stub.process_pdf Stub.flash Stub.torn_page 0 "P" Stub.world0
  = (Ok [],
     mkWorld (<["/tmp/tmpjfk.pdf" := [Byte.x01; Byte.x00; Byte.x03]]> ∅)
       [mkRequest Stub.flash [Text "P"; Picture [Byte.x01]]]
       [StProgress 0; StEmpty; StText "Processing page 1 of 3...";
        StProgress (Qmake 1 3); StText "Processing page 2 of 3...";
        StError "Error processing PDF: cannot render page"]).
Proof.
  apply (first_unrendered_page_aborts Stub.mkstemp Stub.fitz_decode Stub.Image_open
           Stub.gemini Stub.flash Stub.world0 Stub.torn_page 0 "P"
           (Stub.document_of Stub.torn_page) 1 [([Byte.x01], [Byte.x01])]
           "cannot render page").
  - reflexivity.
  - vm_compute. split; [discriminate|reflexivity].
  - reflexivity.
  - reflexivity.
Defined.

Lemma round_eighths_monotone (a b : Q) :
  Qle a b → Qle (Stub.round_eighths a) (Stub.round_eighths b).
Proof.
  intros Hab. unfold Stub.round_eighths. unfold Qle at 1. cbn [Qnum Qden].
  apply Z.mul_le_mono_nonneg_r; [lia|].
  apply Qfloor_resp_le. by apply Qmult_le_compat_r.
Qed.


Lemma negative_limit_processes_nothing_witness :
  (Stub.process_pdf Stub.flash Stub.three_pages (-1) "P" Stub.world0).1 = Ok [].
Proof.
  apply (f_equal fst
           (negative_limit_processes_nothing Stub.mkstemp Stub.fitz_decode Stub.Image_open
              Stub.gemini Stub.flash Stub.world0 Stub.three_pages (-1) "P"
              (Stub.document_of Stub.three_pages) eq_refl eq_refl)).
Defined.

Lemma limit_beyond_page_count_witness :
  Stub.process_pdf Stub.flash Stub.three_pages 7 "P" Stub.world0
  = Stub.process_pdf Stub.flash Stub.three_pages 0 "P" Stub.world0.
Proof.
  apply (limit_beyond_page_count Stub.mkstemp Stub.fitz_decode Stub.Image_open
           Stub.gemini Stub.flash Stub.world0 Stub.three_pages 7 "P"
           (Stub.document_of Stub.three_pages)).
  - reflexivity.
  - vm_compute. discriminate.
Defined.

Lemma limited_run_is_prefix_witness :
  ∃ full,
    (Stub.process_pdf Stub.flash Stub.three_pages 0 "P" Stub.world0).1 = Ok full
    ∧ (Stub.process_pdf Stub.flash Stub.three_pages 2 "P" Stub.world0).1
      = Ok (take 2 full).
Proof.
  apply (limited_run_is_prefix Stub.mkstemp Stub.fitz_decode Stub.Image_open
           Stub.gemini Stub.flash Stub.world0 Stub.three_pages 2 "P"
           (Stub.document_of Stub.three_pages)
           [([Byte.x01], [Byte.x01]); ([Byte.x0b], [Byte.x0b]); ([Byte.x03], [Byte.x03])]).
  - lia.
  - reflexivity.
  - reflexivity.
Defined.

Lemma analyze_document_request_count_witness :
  length (calls (Stub.analyze_document Stub.flash Stub.three_pages 2 "P" Stub.world0).2)
  = 3%nat.
Proof.
  apply (analyze_document_request_count Stub.mkstemp Stub.fitz_decode Stub.Image_open
           Stub.gemini Stub.flash Stub.world0 Stub.three_pages 2 "P"
           (Stub.document_of Stub.three_pages)
           [([Byte.x01], [Byte.x01]); ([Byte.x0b], [Byte.x0b])]).
  - reflexivity.
  - reflexivity.
  - reflexivity.
Defined.

Lemma no_results_no_summary_witness :
  Stub.analyze_document Stub.flash Stub.broken 5 "P" Stub.world0
  = (Ok (), (Stub.process_pdf Stub.flash Stub.broken 5 "P" Stub.world0).2)
  ∧ last (ui (Stub.analyze_document Stub.flash Stub.broken 5 "P" Stub.world0).2)
    = Some (StError "Error processing PDF: cannot open broken document").
Proof.
  apply (no_results_no_summary Stub.mkstemp Stub.fitz_decode Stub.Image_open
           Stub.gemini Stub.flash Stub.world0 Stub.broken 5 "P"
           "cannot open broken document").
  left. reflexivity.
Defined.

Lemma requests_use_selected_model_witness :
  model (mkRequest Stub.flash [Text "P"; Picture [Byte.x0b]]) = Stub.flash
  ∧ ∃ im, contents (mkRequest Stub.flash [Text "P"; Picture [Byte.x0b]])
          = [Text "P"; Picture im].
Proof.
  destruct (requests_use_selected_model Stub.mkstemp Stub.fitz_decode Stub.Image_open
              Stub.gemini Stub.flash Stub.world0 Stub.three_pages 0 "P"
              (mkRequest Stub.flash [Text "P"; Picture [Byte.x0b]]))
    as [Hold|Hnew].
  - vm_compute. apply list_elem_of_further, list_elem_of_here.
  - vm_compute in Hold. destruct (proj1 (elem_of_nil _) Hold).
  - exact Hnew.
Defined.
